(** * PSoC 4 MSCLP low-power proximity example: the power-mode scheduler

    A shallow embedding of [main.c]: the wake-timer macros, the three-mode
    scheduler loop of [main] and the deep-sleep callback, followed by the
    properties checked against them. *)

From Stdlib Require Import ZArith List Bool Lia.
Import ListNotations.
Open Scope Z_scope.

(** ** Machine integers *)

(** [uint32_t] arithmetic of the target (Cortex-M0+). *)
Definition wrap32 (x : Z) : Z := x mod 2 ^ 32.

(** [#if] expressions are evaluated in [uintmax_t] (64 bits). *)
Definition wrap_umax (x : Z) : Z := x mod 2 ^ 64.

(** ** User configurable macros *)

Definition ACTIVE_MODE_REFRESH_RATE : Z := 128.
Definition ALR_MODE_REFRESH_RATE : Z := 32.
Definition ACTIVE_MODE_TIMEOUT_SEC : Z := 5.
Definition ALR_MODE_TIMEOUT_SEC : Z := 5.
Definition ACTIVE_MODE_FRAME_SCAN_TIME : Z := 2891.
Definition ACTIVE_MODE_PROCESS_TIME : Z := 23.
Definition ALR_MODE_FRAME_SCAN_TIME : Z := 2891.
Definition ALR_MODE_PROCESS_TIME : Z := 23.

(** ** Macros *)

Definition CY_ASSERT_FAILED : Z := 0.
Definition ILO_FREQ : Z := 40000.
Definition TIME_IN_US : Z := 1000000.
Definition MINIMUM_TIMER : Z := TIME_IN_US / ILO_FREQ.

(** The shape shared by [ACTIVE_MODE_TIMER] and [ALR_MODE_TIMER]:
<<
  #if ((TIME_IN_US / RATE) > (SCAN + PROCESS))
      #define TIMER (TIME_IN_US / RATE - (SCAN + PROCESS))
  #elif
      #define TIMER (MINIMUM_TIMER)
  #endif
>>
    The condition is evaluated by the preprocessor, the replacement text
    is evaluated as an [unsigned int] expression where the macro is used.
    The second group is introduced by [#elif] without a condition; it is
    taken here as the alternative of the [#if]. *)
Definition MODE_TIMER (rate scan process : Z) : Z :=
  if wrap_umax (scan + process) <? TIME_IN_US / rate
  then wrap32 (TIME_IN_US / rate - wrap32 (scan + process))
  else MINIMUM_TIMER.

Definition ACTIVE_MODE_TIMER : Z :=
  MODE_TIMER ACTIVE_MODE_REFRESH_RATE
             ACTIVE_MODE_FRAME_SCAN_TIME ACTIVE_MODE_PROCESS_TIME.

Definition ALR_MODE_TIMER : Z :=
  MODE_TIMER ALR_MODE_REFRESH_RATE
             ALR_MODE_FRAME_SCAN_TIME ALR_MODE_PROCESS_TIME.

Definition ACTIVE_MODE_TIMEOUT : Z :=
  wrap32 (ACTIVE_MODE_REFRESH_RATE * ACTIVE_MODE_TIMEOUT_SEC).

Definition ALR_MODE_TIMEOUT : Z :=
  wrap32 (ALR_MODE_REFRESH_RATE * ALR_MODE_TIMEOUT_SEC).

Definition TIMEOUT_RESET : Z := 0.

(** ** [APPLICATION_STATE]

    A C enumeration: the variable is an integer and can hold any value,
    which is why the [switch] of [main] has a [default] label. *)
Definition ACTIVE_MODE : Z := 1.
Definition ALR_MODE : Z := 2.
Definition WOT_MODE : Z := 3.

(** ** The scheduler state and its environment *)

(** Widgets named by the generated CAPSENSE configuration. *)
Inductive widget_id : Type :=
| CY_CAPSENSE_LOWPOWER0_WDGT_ID
| CY_CAPSENSE_PROXIMITY0_WDGT_ID.

(** Calls into the middleware and the PDL made by the loop of [main], in
    program order.  Queries carry the value they returned. *)
Inductive call : Type :=
| Cy_CapSense_ScanAllSlots
| Cy_CapSense_ScanAllLpSlots
| Cy_CapSense_IsBusy (busy : bool)
| Cy_SysLib_EnterCriticalSection
| Cy_SysLib_ExitCriticalSection
| Cy_SysPm_CpuEnterDeepSleep
| Cy_CapSense_ProcessAllWidgets
| Cy_CapSense_ProcessWidget (w : widget_id)
| Cy_CapSense_IsAnyWidgetActive (r : Z)
| Cy_CapSense_IsAnyLpWidgetActive (r : Z)
| Cy_CapSense_ConfigureMsclpTimer (wakeupTimer : Z)
| UpdateLeds
| Cy_CapSense_RunTuner.

(** [appState] is the global, [appStateTimeoutCount] the local of [main];
    [wakeupTimer] is the value last given to
    [Cy_CapSense_ConfigureMsclpTimer]. *)
Record machine : Type := mkMachine {
  appState : Z;
  appStateTimeoutCount : Z;
  wakeupTimer : Z
}.

(** What the sensing engine answers during one iteration of the loop:
    how many times [Cy_CapSense_IsBusy] is true before the scan
    completes, and the values of the two activity queries.  A scan that
    never completes has no sample: the loop then waits for ever. *)
Record sample : Type := mkSample {
  busyPolls : nat;
  anyWidgetActive : Z;
  anyLpWidgetActive : Z
}.

(** ** A state, trace and halt monad for the body of [main] *)

Inductive outcome (A : Type) : Type :=
| Done (a : A) (m : machine) (tr : list call)
| Halted (tr : list call).
Arguments Done {A} a m tr.
Arguments Halted {A} tr.

Definition M (A : Type) : Type := machine -> outcome A.

Definition ret {A : Type} (a : A) : M A := fun m => Done a m [].

Definition bind {A B : Type} (c : M A) (k : A -> M B) : M B :=
  fun m =>
    match c m with
    | Done a m1 t1 =>
        match k a m1 with
        | Done b m2 t2 => Done b m2 (t1 ++ t2)
        | Halted t2 => Halted (t1 ++ t2)
        end
    | Halted t1 => Halted t1
    end.

Declare Scope sched_scope.
Delimit Scope sched_scope with sched.
Notation "x <- c ;; k" := (bind c (fun x => k))
  (at level 61, c at next level, right associativity) : sched_scope.
Notation "c ;; k" := (bind c (fun _ => k))
  (at level 61, right associativity) : sched_scope.
Open Scope sched_scope.

Definition emit (c : call) : M unit := fun m => Done tt m [c].

Definition get_appState : M Z := fun m => Done (appState m) m [].
Definition get_count : M Z := fun m => Done (appStateTimeoutCount m) m [].

Definition set_appState (s : Z) : M unit :=
  fun m => Done tt (mkMachine s (appStateTimeoutCount m) (wakeupTimer m)) [].

Definition set_count (c : Z) : M unit :=
  fun m => Done tt (mkMachine (appState m) c (wakeupTimer m)) [].

(** [appStateTimeoutCount++] on a [uint32_t]. *)
Definition incr_count : M unit :=
  fun m => Done tt (mkMachine (appState m)
                              (wrap32 (appStateTimeoutCount m + 1))
                              (wakeupTimer m)) [].

Definition ConfigureMsclpTimer (t : Z) : M unit :=
  fun m => Done tt (mkMachine (appState m) (appStateTimeoutCount m) t)
                [Cy_CapSense_ConfigureMsclpTimer t].

(** Modelled from the spec: the macro [CY_ASSERT] belongs to the PDL and is
    not among the sources; the specification describes a failed assertion
    as a fatal abort, so [CY_ASSERT(0)] stops the program. *)
Definition CY_ASSERT (x : Z) : M unit :=
  fun m => if x =? 0 then Halted [] else Done tt m [].

(** [while (Cy_CapSense_IsBusy(...)) { body }] for a scan that is busy
    [n] times before it completes. *)
Fixpoint while_busy (n : nat) (body : M unit) : M unit :=
  match n with
  | O => emit (Cy_CapSense_IsBusy false)
  | S k => emit (Cy_CapSense_IsBusy true) ;; body ;; while_busy k body
  end.

(** The wait of the Active and ALR cases, lines 341-350 and 388-397. *)
Definition await_scan (n : nat) : M unit :=
  emit Cy_SysLib_EnterCriticalSection ;;
  while_busy n (emit Cy_SysPm_CpuEnterDeepSleep ;;
                emit Cy_SysLib_ExitCriticalSection ;;
                emit Cy_SysLib_EnterCriticalSection) ;;
  emit Cy_SysLib_ExitCriticalSection.

(** The wait of the WOT case, lines 438-445. *)
Definition await_lp_scan (n : nat) : M unit :=
  while_busy n (emit Cy_SysPm_CpuEnterDeepSleep).

(** [case ACTIVE_MODE:] *)
Definition active_mode_case (s : sample) : M unit :=
  emit Cy_CapSense_ScanAllSlots ;;
  await_scan (busyPolls s) ;;
  emit Cy_CapSense_ProcessAllWidgets ;;
  emit (Cy_CapSense_IsAnyWidgetActive (anyWidgetActive s)) ;;
  if negb (anyWidgetActive s =? 0)
  then set_count TIMEOUT_RESET
  else
    incr_count ;;
    c <- get_count ;;
    if ACTIVE_MODE_TIMEOUT <? c
    then set_appState ALR_MODE ;;
         set_count TIMEOUT_RESET ;;
         ConfigureMsclpTimer ALR_MODE_TIMER
    else ret tt.

(** [case ALR_MODE:] *)
Definition alr_mode_case (s : sample) : M unit :=
  emit Cy_CapSense_ScanAllSlots ;;
  await_scan (busyPolls s) ;;
  emit Cy_CapSense_ProcessAllWidgets ;;
  emit (Cy_CapSense_IsAnyWidgetActive (anyWidgetActive s)) ;;
  if negb (anyWidgetActive s =? 0)
  then set_appState ACTIVE_MODE ;;
       set_count TIMEOUT_RESET ;;
       ConfigureMsclpTimer ACTIVE_MODE_TIMER
  else
    incr_count ;;
    c <- get_count ;;
    if ALR_MODE_TIMEOUT <? c
    then set_appState WOT_MODE ;;
         set_count TIMEOUT_RESET
    else ret tt.

(** [case WOT_MODE:] *)
Definition wot_mode_case (s : sample) : M unit :=
  emit Cy_CapSense_ScanAllLpSlots ;;
  await_lp_scan (busyPolls s) ;;
  emit (Cy_CapSense_ProcessWidget CY_CAPSENSE_LOWPOWER0_WDGT_ID) ;;
  emit (Cy_CapSense_IsAnyLpWidgetActive (anyLpWidgetActive s)) ;;
  if negb (anyLpWidgetActive s =? 0)
  then set_appState ACTIVE_MODE ;;
       set_count TIMEOUT_RESET ;;
       ConfigureMsclpTimer ACTIVE_MODE_TIMER
  else set_appState ALR_MODE ;;
       set_count TIMEOUT_RESET ;;
       ConfigureMsclpTimer ALR_MODE_TIMER.

(** [switch(appState)] *)
Definition dispatch (s : sample) : M unit :=
  st <- get_appState ;;
  if st =? ACTIVE_MODE then active_mode_case s
  else if st =? ALR_MODE then alr_mode_case s
  else if st =? WOT_MODE then wot_mode_case s
  else CY_ASSERT CY_ASSERT_FAILED.

(** One iteration of [for (;;)], with [ENABLE_SPI_SERIAL_LED] and
    [ENABLE_TUNER] set and [ENABLE_RUN_TIME_MEASUREMENT] clear. *)
Definition main_cycle (s : sample) : M unit :=
  dispatch s ;;
  emit UpdateLeds ;;
  emit Cy_CapSense_RunTuner.

(** The loop of [main] over the samples of its first iterations. *)
Fixpoint main_loop (ss : list sample) : M unit :=
  match ss with
  | [] => ret tt
  | s :: rest => main_cycle s ;; main_loop rest
  end.

(** The state at the head of the loop, lines 313-329. *)
Definition main_init : machine :=
  mkMachine ACTIVE_MODE 0 ACTIVE_MODE_TIMER.

(** Projections of an outcome. *)
Definition final {A : Type} (o : outcome A) : option machine :=
  match o with Done _ m _ => Some m | Halted _ => None end.

Definition trace {A : Type} (o : outcome A) : list call :=
  match o with Done _ _ tr => tr | Halted tr => tr end.

(** The activity query a mode consults: all widgets in Active and ALR,
    the low-power widgets in WOT. *)
Definition reports_activity (mode : Z) (s : sample) : bool :=
  if mode =? WOT_MODE then negb (anyLpWidgetActive s =? 0)
  else negb (anyWidgetActive s =? 0).

Definition is_timer_config (c : call) : bool :=
  match c with Cy_CapSense_ConfigureMsclpTimer _ => true | _ => false end.

Definition is_scan (c : call) : bool :=
  match c with
  | Cy_CapSense_ScanAllSlots | Cy_CapSense_ScanAllLpSlots => true
  | _ => false
  end.

Definition is_evaluate (c : call) : bool :=
  match c with
  | Cy_CapSense_IsAnyWidgetActive _ | Cy_CapSense_IsAnyLpWidgetActive _ => true
  | _ => false
  end.

Definition is_wait (c : call) : bool :=
  match c with
  | Cy_CapSense_IsBusy _ | Cy_SysPm_CpuEnterDeepSleep
  | Cy_SysLib_EnterCriticalSection | Cy_SysLib_ExitCriticalSection => true
  | _ => false
  end.

(** The loop invariant: at the head of the loop the mode is one of the
    three, the counter has not passed the timeout of the mode, and it is 0
    in WOT mode. *)
Definition loop_invariant (m : machine) : Prop :=
  (appState m = ACTIVE_MODE /\
   0 <= appStateTimeoutCount m <= ACTIVE_MODE_TIMEOUT) \/
  (appState m = ALR_MODE /\
   0 <= appStateTimeoutCount m <= ALR_MODE_TIMEOUT) \/
  (appState m = WOT_MODE /\ appStateTimeoutCount m = 0).

(** ** The deep-sleep callback *)

(** [cy_en_syspm_status_t], of which the callback names two values. *)
Inductive cy_en_syspm_status_t : Type :=
| CY_SYSPM_SUCCESS
| CY_SYSPM_FAIL.

(** [cy_en_syspm_callback_mode_t]: the enumerators are declared in the PDL
    header [cy_syspm.h], which is not among the sources; what follows uses
    only that they are pairwise distinct, as the [case] labels of one
    [switch] must be. *)
Definition CY_SYSPM_CHECK_READY : Z := 1.
Definition CY_SYSPM_CHECK_FAIL : Z := 2.
Definition CY_SYSPM_BEFORE_TRANSITION : Z := 4.
Definition CY_SYSPM_AFTER_TRANSITION : Z := 8.

(** Drive modes of a GPIO pin: the two the callback names and two further
    ones of the PDL. *)
Inductive drive_mode : Type :=
| CY_GPIO_DM_ANALOG
| CY_GPIO_DM_HIGHZ
| CY_GPIO_DM_STRONG
| CY_GPIO_DM_STRONG_IN_OFF.

(** The drive mode of every pin, by port and pin number. *)
Definition gpio : Type := Z -> Z -> drive_mode.

Definition Cy_GPIO_SetDrivemode
    (port pinNum : Z) (value : drive_mode) (g : gpio) : gpio :=
  fun p n => if (p =? port) && (n =? pinNum) then value else g p n.

Section DeepSleep.

(** The serial-LED data pin, named by the board support package. *)
Variables CYBSP_SPI_MOSI_PORT CYBSP_SPI_MOSI_PIN : Z.

(** [DeepSleepCallback], with [ENABLE_SPI_SERIAL_LED] set.  The
    parameter [callbackParams] is not used by the function. *)
Definition DeepSleepCallback (mode : Z) (g : gpio)
  : cy_en_syspm_status_t * gpio :=
  let retValue := CY_SYSPM_FAIL in
  if mode =? CY_SYSPM_CHECK_READY then
    let retValue := CY_SYSPM_SUCCESS in (retValue, g)
  else if mode =? CY_SYSPM_CHECK_FAIL then
    let retValue := CY_SYSPM_SUCCESS in (retValue, g)
  else if mode =? CY_SYSPM_BEFORE_TRANSITION then
    let g := Cy_GPIO_SetDrivemode CYBSP_SPI_MOSI_PORT CYBSP_SPI_MOSI_PIN
                                  CY_GPIO_DM_ANALOG g in
    let retValue := CY_SYSPM_SUCCESS in (retValue, g)
  else if mode =? CY_SYSPM_AFTER_TRANSITION then
    let g := Cy_GPIO_SetDrivemode CYBSP_SPI_MOSI_PORT CYBSP_SPI_MOSI_PIN
                                  CY_GPIO_DM_STRONG_IN_OFF g in
    let retValue := CY_SYSPM_SUCCESS in (retValue, g)
  else
    let retValue := CY_SYSPM_SUCCESS in (retValue, g).

(** The pin configuration left by [CY_SYSPM_BEFORE_TRANSITION] followed
    by [CY_SYSPM_AFTER_TRANSITION]. *)
Definition sleep_and_wake (g : gpio) : gpio :=
  snd (DeepSleepCallback CY_SYSPM_AFTER_TRANSITION
         (snd (DeepSleepCallback CY_SYSPM_BEFORE_TRANSITION g))).

End DeepSleep.

(** ** Traces of the wait loops *)

(** The calls of [while (Cy_CapSense_IsBusy(...)) { body }] when the scan
    is busy [n] times and the body makes the calls [body]. *)
Fixpoint busy_polls (n : nat) (body : list call) : list call :=
  match n with
  | O => [Cy_CapSense_IsBusy false]
  | S k => Cy_CapSense_IsBusy true :: body ++ busy_polls k body
  end.

(** The calls of [await_scan] and of [await_lp_scan]. *)
Definition scan_wait (n : nat) : list call :=
  Cy_SysLib_EnterCriticalSection ::
  busy_polls n [Cy_SysPm_CpuEnterDeepSleep;
                Cy_SysLib_ExitCriticalSection;
                Cy_SysLib_EnterCriticalSection] ++
  [Cy_SysLib_ExitCriticalSection].

Definition lp_scan_wait (n : nat) : list call :=
  busy_polls n [Cy_SysPm_CpuEnterDeepSleep].

Definition is_deep_sleep (c : call) : bool :=
  match c with Cy_SysPm_CpuEnterDeepSleep => true | _ => false end.

Definition is_critical (c : call) : bool :=
  match c with
  | Cy_SysLib_EnterCriticalSection | Cy_SysLib_ExitCriticalSection => true
  | _ => false
  end.

(** The discipline of the Active and ALR cases: critical sections are
    entered and left alternately, the busy flag is read and deep sleep is
    entered only inside one, every other call is made outside, and no
    section is left open.  [inside] tells whether a section is open. *)
Fixpoint guarded_sleep (inside : bool) (tr : list call) : bool :=
  match tr with
  | [] => negb inside
  | Cy_SysLib_EnterCriticalSection :: t => negb inside && guarded_sleep true t
  | Cy_SysLib_ExitCriticalSection :: t => inside && guarded_sleep false t
  | Cy_SysPm_CpuEnterDeepSleep :: t => inside && guarded_sleep inside t
  | Cy_CapSense_IsBusy _ :: t => inside && guarded_sleep inside t
  | _ :: t => negb inside && guarded_sleep inside t
  end.

(** The loop invariant with the wake timer: the reload value is that of
    the mode, WOT mode keeping the one of ALR mode. *)
Definition timer_invariant (m : machine) : Prop :=
  loop_invariant m /\
  wakeupTimer m =
  if appState m =? ACTIVE_MODE then ACTIVE_MODE_TIMER else ALR_MODE_TIMER.

(** ** [UpdateLeds] *)

Module Leds.

Definition SERIAL_LED_BRIGHTNESS_MAX : Z := 255.
Definition TOUCH_STATE : Z := 3.
Definition PROX_STATE : Z := 1.

Definition wrap16 (x : Z) : Z := x mod 2 ^ 16.
Definition wrap8 (x : Z) : Z := x mod 2 ^ 8.

(** The two fields of [ledContext.serialLedData[LED1]] the function
    writes. *)
Record led : Type := mkLed {
  green : Z;
  blue : Z
}.

(** What the function reads: the value of
    [Cy_CapSense_IsProximitySensorActive] and three 16-bit fields of
    [cy_capsense_tuner]. *)
Record reading : Type := mkReading {
  proxSensorStatus : Z;
  maxRawCount : Z;
  bsln : Z;
  diff : Z
}.

(** [UpdateLeds], up to the call of [ProcessSerialLed], which sends the
    context to the LEDs and is not among the sources.  The result is
    [None] when the function divides by zero. *)
Definition UpdateLeds (t : reading) (led1 : led) : option led :=
  let led1 := mkLed 0 (blue led1) in
  let led1 := mkLed (green led1) 0 in
  if proxSensorStatus t =? PROX_STATE then
    let proxMaxRawCount := maxRawCount t in
    let maxDiffCount := wrap16 (proxMaxRawCount - bsln t) in
    if maxDiffCount =? 0 then None
    else
      let proxLedBrightness :=
        wrap8 (wrap32 (diff t * 255) / maxDiffCount) in
      Some (mkLed proxLedBrightness (blue led1))
  else if TOUCH_STATE <=? proxSensorStatus t then
    let led1 := mkLed 0 (blue led1) in
    Some (mkLed (green led1) SERIAL_LED_BRIGHTNESS_MAX)
  else Some led1.

End Leds.

(** ** The start of [main] *)

Module Startup.

Inductive irq_source : Type :=
| CY_MSCLP0_LP_IRQ
| CYBSP_EZI2C_IRQ.

Inductive callback : Type :=
| ezi2cCallback
| spiCallback
| deepSleepCb.

(** Calls made before the loop; [Loop_call] is a call that the loop
    makes as well. *)
Inductive startup_call : Type :=
| cybsp_init (result : Z)
| enable_irq
| Cy_SCB_EZI2C_Init (status : Z)
| Cy_SysInt_Init (irq : irq_source)
| NVIC_ClearPendingIRQ (irq : irq_source)
| NVIC_EnableIRQ (irq : irq_source)
| Cy_SCB_EZI2C_SetBuffer1
| Cy_SCB_EZI2C_Enable
| InitSpiMaster (result : Z)
| Cy_SysPm_RegisterCallback (cb : callback)
| Cy_CapSense_Init (status : Z)
| Cy_CapSense_Enable (status : Z)
| Cy_CapSense_IloCompensate
| Loop_call (c : call).

(** What the initialisation functions return. *)
Record init_results : Type := mkResults {
  cybsp_init_result : Z;
  ezi2c_init_status : Z;
  InitSpiMaster_result : Z;
  capsense_init_status : Z;
  capsense_enable_status : Z
}.

Inductive startup_outcome : Type :=
| Started (m : machine) (tr : list startup_call)
| Stopped (tr : list startup_call).

Definition is_register (c : startup_call) : bool :=
  match c with Cy_SysPm_RegisterCallback _ => true | _ => false end.

Definition is_capsense_setup (c : startup_call) : bool :=
  match c with
  | Cy_CapSense_Init _ | Cy_CapSense_Enable _
  | Cy_SysInt_Init CY_MSCLP0_LP_IRQ | NVIC_EnableIRQ CY_MSCLP0_LP_IRQ
  | NVIC_ClearPendingIRQ CY_MSCLP0_LP_IRQ => true
  | _ => false
  end.

Section Codes.

(** The success codes, declared in headers that are not among the
    sources. *)
Variables CY_RSLT_SUCCESS CY_SCB_EZI2C_SUCCESS INIT_SUCCESS
          CY_CAPSENSE_STATUS_SUCCESS : Z.

(** [InitializeCapsenseTuner]: the calls made, and whether the function
    returns ([CY_ASSERT] stops it when the EZI2C block fails). *)
Definition InitializeCapsenseTuner (r : init_results)
  : list startup_call * bool :=
  let status := ezi2c_init_status r in
  if negb (status =? CY_SCB_EZI2C_SUCCESS)
  then ([Cy_SCB_EZI2C_Init status], false)
  else ([Cy_SCB_EZI2C_Init status;
         Cy_SysInt_Init CYBSP_EZI2C_IRQ;
         NVIC_EnableIRQ CYBSP_EZI2C_IRQ;
         Cy_SCB_EZI2C_SetBuffer1;
         Cy_SCB_EZI2C_Enable], true).

(** [InitializeCapsense]: a failure status is looked at and dropped. *)
Definition InitializeCapsense (r : init_results) : list startup_call :=
  let status := capsense_init_status r in
  Cy_CapSense_Init status ::
  if CY_CAPSENSE_STATUS_SUCCESS =? status
  then [Cy_SysInt_Init CY_MSCLP0_LP_IRQ;
        NVIC_ClearPendingIRQ CY_MSCLP0_LP_IRQ;
        NVIC_EnableIRQ CY_MSCLP0_LP_IRQ;
        Cy_CapSense_Enable (capsense_enable_status r)]
  else [].

(** [RegisterCallback], with [ENABLE_SPI_SERIAL_LED] set. *)
Definition RegisterCallback : list startup_call :=
  [Cy_SysPm_RegisterCallback ezi2cCallback;
   Cy_SysPm_RegisterCallback spiCallback;
   Cy_SysPm_RegisterCallback deepSleepCb].

(** [main] down to the head of the loop, lines 278-329, from the machine
    [m0] found at reset. *)
Definition main_startup (r : init_results) (m0 : machine) : startup_outcome :=
  let result := cybsp_init_result r in
  let tr := [cybsp_init result] in
  if negb (result =? CY_RSLT_SUCCESS) then Stopped tr else
  let tr := tr ++ [enable_irq] in
  let (tuner_calls, returned) := InitializeCapsenseTuner r in
  let tr := tr ++ tuner_calls in
  if negb returned then Stopped tr else
  let result := InitSpiMaster_result r in
  let tr := tr ++ [InitSpiMaster result] in
  if negb (result =? INIT_SUCCESS) then Stopped tr else
  let tr := tr ++ RegisterCallback in
  let m := mkMachine ACTIVE_MODE (appStateTimeoutCount m0) (wakeupTimer m0) in
  let m := mkMachine (appState m) 0 (wakeupTimer m) in
  let tr := tr ++ InitializeCapsense r in
  let tr := tr ++ [Loop_call UpdateLeds; Cy_CapSense_IloCompensate] in
  let m := mkMachine (appState m) (appStateTimeoutCount m) ACTIVE_MODE_TIMER in
  let tr :=
    tr ++ [Loop_call (Cy_CapSense_ConfigureMsclpTimer ACTIVE_MODE_TIMER)] in
  Started m tr.


End Codes.

End Startup.

(** * Properties *)

(** ** Running the model on concrete inputs *)

Example main_cycle_wot_example :
  main_cycle (mkSample 2 0 1) (mkMachine WOT_MODE 0 ALR_MODE_TIMER) =
  Done tt (mkMachine ACTIVE_MODE 0 4898)
       [Cy_CapSense_ScanAllLpSlots;
        Cy_CapSense_IsBusy true; Cy_SysPm_CpuEnterDeepSleep;
        Cy_CapSense_IsBusy true; Cy_SysPm_CpuEnterDeepSleep;
        Cy_CapSense_IsBusy false;
        Cy_CapSense_ProcessWidget CY_CAPSENSE_LOWPOWER0_WDGT_ID;
        Cy_CapSense_IsAnyLpWidgetActive 1;
        Cy_CapSense_ConfigureMsclpTimer 4898;
        UpdateLeds; Cy_CapSense_RunTuner].
Proof. vm_compute. reflexivity. Qed.

Example timers_example :
  MINIMUM_TIMER = 25 /\ ACTIVE_MODE_TIMER = 4898 /\ ALR_MODE_TIMER = 28336 /\
  ACTIVE_MODE_TIMEOUT = 640 /\ ALR_MODE_TIMEOUT = 160.
Proof. vm_compute. repeat split. Qed.

Example deep_sleep_example :
  sleep_and_wake 0 3 (fun _ _ => CY_GPIO_DM_HIGHZ) 0 3 = CY_GPIO_DM_STRONG_IN_OFF.
Proof. reflexivity. Qed.

(** ** The monad on straight-line code *)

Lemma bind_Done {A B : Type} (c : M A) (k : A -> M B) m a m1 t1 :
  c m = Done a m1 t1 ->
  bind c k m =
  match k a m1 with
  | Done b m2 t2 => Done b m2 (t1 ++ t2)
  | Halted t2 => Halted (t1 ++ t2)
  end.
Proof. intros H. unfold bind. rewrite H. reflexivity. Qed.

(** A wait loop whose body only makes waiting calls leaves the machine as
    it is, and terminates for every number of busy polls. *)
Lemma while_busy_waits (body : M unit) :
  (forall m, exists tb, body m = Done tt m tb /\ forallb is_wait tb = true) ->
  forall n m, exists tr,
    while_busy n body m = Done tt m tr /\ forallb is_wait tr = true.
Proof.
  intros Hbody n. induction n as [|k IH]; intros m.
  - exists [Cy_CapSense_IsBusy false]. split; reflexivity.
  - destruct (Hbody m) as (tb & Hb & Hw).
    destruct (IH m) as (tk & Hk & Hwk).
    exists (Cy_CapSense_IsBusy true :: tb ++ tk). split.
    + simpl. unfold bind at 1. simpl.
      rewrite (bind_Done _ _ _ _ _ _ Hb), Hk. reflexivity.
    + simpl. rewrite forallb_app, Hw, Hwk. reflexivity.
Qed.

Lemma await_scan_waits n m :
  exists tr, await_scan n m = Done tt m tr /\ forallb is_wait tr = true.
Proof.
  destruct (while_busy_waits
              (emit Cy_SysPm_CpuEnterDeepSleep ;;
               emit Cy_SysLib_ExitCriticalSection ;;
               emit Cy_SysLib_EnterCriticalSection)) with (n := n) (m := m)
    as (tr & Hr & Hw).
  { intros m0. eexists. split; reflexivity. }
  exists (Cy_SysLib_EnterCriticalSection :: tr ++ [Cy_SysLib_ExitCriticalSection]).
  split.
  - unfold await_scan. unfold bind at 1. simpl.
    rewrite (bind_Done _ _ _ _ _ _ Hr). reflexivity.
  - simpl. rewrite forallb_app, Hw. reflexivity.
Qed.

Lemma await_lp_scan_waits n m :
  exists tr, await_lp_scan n m = Done tt m tr /\ forallb is_wait tr = true.
Proof.
  apply while_busy_waits. intros m0. eexists. split; reflexivity.
Qed.

Lemma filter_waits (f : call -> bool) tr :
  (forall c, is_wait c = true -> f c = false) ->
  forallb is_wait tr = true -> filter f tr = [].
Proof.
  intros Hf. induction tr as [|c tr IH]; simpl; intros H; [reflexivity|].
  apply andb_true_iff in H. destruct H as [Hc Htr].
  rewrite (Hf c Hc). auto.
Qed.

Lemma is_wait_not_scan c : is_wait c = true -> is_scan c = false.
Proof. destruct c; simpl; congruence. Qed.

Lemma is_wait_not_evaluate c : is_wait c = true -> is_evaluate c = false.
Proof. destruct c; simpl; congruence. Qed.

Lemma is_wait_not_timer_config c :
  is_wait c = true -> is_timer_config c = false.
Proof. destruct c; simpl; congruence. Qed.

(** ** The three cases of the [switch], each as one equation *)

Ltac run_case Hw :=
  unfold bind at 1; cbn [emit];
  rewrite (bind_Done _ _ _ _ _ _ Hw);
  unfold bind, emit, set_count, set_appState, incr_count, get_count,
    ConfigureMsclpTimer, ret;
  cbn [appState appStateTimeoutCount wakeupTimer negb].

Lemma active_mode_case_run s m :
  exists w, forallb is_wait w = true /\
    let pre := Cy_CapSense_ScanAllSlots :: w ++
               [Cy_CapSense_ProcessAllWidgets;
                Cy_CapSense_IsAnyWidgetActive (anyWidgetActive s)] in
    active_mode_case s m =
    if anyWidgetActive s =? 0 then
      if ACTIVE_MODE_TIMEOUT <? wrap32 (appStateTimeoutCount m + 1)
      then Done tt (mkMachine ALR_MODE 0 ALR_MODE_TIMER)
             (pre ++ [Cy_CapSense_ConfigureMsclpTimer ALR_MODE_TIMER])
      else Done tt (mkMachine (appState m)
                              (wrap32 (appStateTimeoutCount m + 1))
                              (wakeupTimer m)) pre
    else Done tt (mkMachine (appState m) 0 (wakeupTimer m)) pre.
Proof.
  destruct (await_scan_waits (busyPolls s) m) as (w & Hw & Hf).
  exists w. split; [exact Hf|]. intros pre. subst pre.
  unfold active_mode_case. run_case Hw.
  destruct (anyWidgetActive s =? 0); cbn [negb].
  - destruct (ACTIVE_MODE_TIMEOUT <? wrap32 (appStateTimeoutCount m + 1));
      cbn [app]; rewrite ?app_nil_r, <- ?app_assoc; reflexivity.
  - cbn [app]. rewrite ?app_nil_r. reflexivity.
Qed.

Lemma alr_mode_case_run s m :
  exists w, forallb is_wait w = true /\
    let pre := Cy_CapSense_ScanAllSlots :: w ++
               [Cy_CapSense_ProcessAllWidgets;
                Cy_CapSense_IsAnyWidgetActive (anyWidgetActive s)] in
    alr_mode_case s m =
    if anyWidgetActive s =? 0 then
      if ALR_MODE_TIMEOUT <? wrap32 (appStateTimeoutCount m + 1)
      then Done tt (mkMachine WOT_MODE 0 (wakeupTimer m)) pre
      else Done tt (mkMachine (appState m)
                              (wrap32 (appStateTimeoutCount m + 1))
                              (wakeupTimer m)) pre
    else Done tt (mkMachine ACTIVE_MODE 0 ACTIVE_MODE_TIMER)
           (pre ++ [Cy_CapSense_ConfigureMsclpTimer ACTIVE_MODE_TIMER]).
Proof.
  destruct (await_scan_waits (busyPolls s) m) as (w & Hw & Hf).
  exists w. split; [exact Hf|]. intros pre. subst pre.
  unfold alr_mode_case. run_case Hw.
  destruct (anyWidgetActive s =? 0); cbn [negb].
  - destruct (ALR_MODE_TIMEOUT <? wrap32 (appStateTimeoutCount m + 1));
      cbn [app]; rewrite ?app_nil_r, <- ?app_assoc; reflexivity.
  - cbn [app]. rewrite ?app_nil_r, <- ?app_assoc. reflexivity.
Qed.

Lemma wot_mode_case_run s m :
  exists w, forallb is_wait w = true /\
    let pre := Cy_CapSense_ScanAllLpSlots :: w ++
               [Cy_CapSense_ProcessWidget CY_CAPSENSE_LOWPOWER0_WDGT_ID;
                Cy_CapSense_IsAnyLpWidgetActive (anyLpWidgetActive s)] in
    wot_mode_case s m =
    if anyLpWidgetActive s =? 0
    then Done tt (mkMachine ALR_MODE 0 ALR_MODE_TIMER)
           (pre ++ [Cy_CapSense_ConfigureMsclpTimer ALR_MODE_TIMER])
    else Done tt (mkMachine ACTIVE_MODE 0 ACTIVE_MODE_TIMER)
           (pre ++ [Cy_CapSense_ConfigureMsclpTimer ACTIVE_MODE_TIMER]).
Proof.
  destruct (await_lp_scan_waits (busyPolls s) m) as (w & Hw & Hf).
  exists w. split; [exact Hf|]. intros pre. subst pre.
  unfold wot_mode_case. run_case Hw.
  destruct (anyLpWidgetActive s =? 0); cbn [negb app];
    rewrite ?app_nil_r, <- ?app_assoc; reflexivity.
Qed.

(** ** One iteration of the loop *)

Lemma dispatch_active s m :
  appState m = ACTIVE_MODE -> dispatch s m = active_mode_case s m.
Proof.
  intros H. unfold dispatch, bind, get_appState. rewrite H. cbn [Z.eqb ACTIVE_MODE Pos.eqb].
  destruct (active_mode_case s m); cbn [app]; reflexivity.
Qed.

Lemma dispatch_alr s m :
  appState m = ALR_MODE -> dispatch s m = alr_mode_case s m.
Proof.
  intros H. unfold dispatch, bind, get_appState. rewrite H.
  change (ALR_MODE =? ACTIVE_MODE) with false.
  change (ALR_MODE =? ALR_MODE) with true. cbv iota.
  destruct (alr_mode_case s m); cbn [app]; reflexivity.
Qed.

Lemma dispatch_wot s m :
  appState m = WOT_MODE -> dispatch s m = wot_mode_case s m.
Proof.
  intros H. unfold dispatch, bind, get_appState. rewrite H.
  change (WOT_MODE =? ACTIVE_MODE) with false.
  change (WOT_MODE =? ALR_MODE) with false.
  change (WOT_MODE =? WOT_MODE) with true. cbv iota.
  destruct (wot_mode_case s m); cbn [app]; reflexivity.
Qed.

Lemma dispatch_default s m :
  appState m <> ACTIVE_MODE -> appState m <> ALR_MODE ->
  appState m <> WOT_MODE -> dispatch s m = Halted [].
Proof.
  intros H1 H2 H3. unfold dispatch, bind, get_appState.
  apply Z.eqb_neq in H1, H2, H3. rewrite H1, H2, H3. reflexivity.
Qed.

Lemma main_cycle_Done s m m1 t1 :
  dispatch s m = Done tt m1 t1 ->
  main_cycle s m = Done tt m1 (t1 ++ [UpdateLeds; Cy_CapSense_RunTuner]).
Proof.
  intros H. unfold main_cycle. rewrite (bind_Done _ _ _ _ _ _ H). reflexivity.
Qed.

Lemma main_cycle_Halted s m t1 :
  dispatch s m = Halted t1 -> main_cycle s m = Halted t1.
Proof. intros H. unfold main_cycle, bind. rewrite H. reflexivity. Qed.

Lemma main_cycle_active s m :
  appState m = ACTIVE_MODE ->
  exists w, forallb is_wait w = true /\
    let pre := Cy_CapSense_ScanAllSlots :: w ++
               [Cy_CapSense_ProcessAllWidgets;
                Cy_CapSense_IsAnyWidgetActive (anyWidgetActive s)] in
    let post := [UpdateLeds; Cy_CapSense_RunTuner] in
    main_cycle s m =
    if anyWidgetActive s =? 0 then
      if ACTIVE_MODE_TIMEOUT <? wrap32 (appStateTimeoutCount m + 1)
      then Done tt (mkMachine ALR_MODE 0 ALR_MODE_TIMER)
             ((pre ++ [Cy_CapSense_ConfigureMsclpTimer ALR_MODE_TIMER]) ++ post)
      else Done tt (mkMachine ACTIVE_MODE
                              (wrap32 (appStateTimeoutCount m + 1))
                              (wakeupTimer m)) (pre ++ post)
    else Done tt (mkMachine ACTIVE_MODE 0 (wakeupTimer m)) (pre ++ post).
Proof.
  intros Hm. destruct (active_mode_case_run s m) as (w & Hf & Hrun).
  exists w. split; [exact Hf|]. cbv zeta in *.
  rewrite <- (dispatch_active s m Hm), Hm in Hrun.
  destruct (anyWidgetActive s =? 0);
    [destruct (ACTIVE_MODE_TIMEOUT <? wrap32 (appStateTimeoutCount m + 1))|];
    apply main_cycle_Done; exact Hrun.
Qed.

Lemma main_cycle_alr s m :
  appState m = ALR_MODE ->
  exists w, forallb is_wait w = true /\
    let pre := Cy_CapSense_ScanAllSlots :: w ++
               [Cy_CapSense_ProcessAllWidgets;
                Cy_CapSense_IsAnyWidgetActive (anyWidgetActive s)] in
    let post := [UpdateLeds; Cy_CapSense_RunTuner] in
    main_cycle s m =
    if anyWidgetActive s =? 0 then
      if ALR_MODE_TIMEOUT <? wrap32 (appStateTimeoutCount m + 1)
      then Done tt (mkMachine WOT_MODE 0 (wakeupTimer m)) (pre ++ post)
      else Done tt (mkMachine ALR_MODE
                              (wrap32 (appStateTimeoutCount m + 1))
                              (wakeupTimer m)) (pre ++ post)
    else Done tt (mkMachine ACTIVE_MODE 0 ACTIVE_MODE_TIMER)
           ((pre ++ [Cy_CapSense_ConfigureMsclpTimer ACTIVE_MODE_TIMER]) ++ post).
Proof.
  intros Hm. destruct (alr_mode_case_run s m) as (w & Hf & Hrun).
  exists w. split; [exact Hf|]. cbv zeta in *.
  rewrite <- (dispatch_alr s m Hm), Hm in Hrun.
  destruct (anyWidgetActive s =? 0);
    [destruct (ALR_MODE_TIMEOUT <? wrap32 (appStateTimeoutCount m + 1))|];
    apply main_cycle_Done; exact Hrun.
Qed.

Lemma main_cycle_wot s m :
  appState m = WOT_MODE ->
  exists w, forallb is_wait w = true /\
    let pre := Cy_CapSense_ScanAllLpSlots :: w ++
               [Cy_CapSense_ProcessWidget CY_CAPSENSE_LOWPOWER0_WDGT_ID;
                Cy_CapSense_IsAnyLpWidgetActive (anyLpWidgetActive s)] in
    let post := [UpdateLeds; Cy_CapSense_RunTuner] in
    main_cycle s m =
    if anyLpWidgetActive s =? 0
    then Done tt (mkMachine ALR_MODE 0 ALR_MODE_TIMER)
           ((pre ++ [Cy_CapSense_ConfigureMsclpTimer ALR_MODE_TIMER]) ++ post)
    else Done tt (mkMachine ACTIVE_MODE 0 ACTIVE_MODE_TIMER)
           ((pre ++ [Cy_CapSense_ConfigureMsclpTimer ACTIVE_MODE_TIMER]) ++ post).
Proof.
  intros Hm. destruct (wot_mode_case_run s m) as (w & Hf & Hrun).
  exists w. split; [exact Hf|]. cbv zeta in *.
  rewrite <- (dispatch_wot s m Hm) in Hrun.
  destruct (anyLpWidgetActive s =? 0); apply main_cycle_Done; exact Hrun.
Qed.

Lemma main_cycle_default s m :
  appState m <> ACTIVE_MODE -> appState m <> ALR_MODE ->
  appState m <> WOT_MODE -> main_cycle s m = Halted [].
Proof.
  intros H1 H2 H3. apply main_cycle_Halted, dispatch_default; assumption.
Qed.

(** Filtering a trace of the shape produced by a cycle. *)
Ltac filter_trace Hf :=
  cbn [filter app is_scan is_evaluate is_timer_config];
  rewrite ?filter_app;
  rewrite ?(filter_waits is_scan _ is_wait_not_scan Hf),
          ?(filter_waits is_evaluate _ is_wait_not_evaluate Hf),
          ?(filter_waits is_timer_config _ is_wait_not_timer_config Hf);
  cbn [filter app is_scan is_evaluate is_timer_config].

Lemma wrap32_small x : 0 <= x < 2 ^ 32 -> wrap32 x = x.
Proof. intros H. unfold wrap32. apply Z.mod_small. exact H. Qed.

Lemma wrap32_range x : 0 <= wrap32 x < 2 ^ 32.
Proof. unfold wrap32. apply Z.mod_pos_bound. reflexivity. Qed.

Lemma ACTIVE_MODE_TIMEOUT_value : ACTIVE_MODE_TIMEOUT = 640.
Proof. reflexivity. Qed.

Lemma ALR_MODE_TIMEOUT_value : ALR_MODE_TIMEOUT = 160.
Proof. reflexivity. Qed.

Lemma wrap32_succ c :
  0 <= c < 2 ^ 32 ->
  wrap32 (c + 1) = if c + 1 <? 2 ^ 32 then c + 1 else 0.
Proof.
  intros H. destruct (c + 1 <? 2 ^ 32) eqn:E.
  - apply Z.ltb_lt in E. apply wrap32_small. lia.
  - apply Z.ltb_ge in E. replace (c + 1) with (2 ^ 32) by lia. reflexivity.
Qed.

Lemma reports_activity_active s :
  reports_activity ACTIVE_MODE s = negb (anyWidgetActive s =? 0).
Proof. reflexivity. Qed.

Lemma reports_activity_alr s :
  reports_activity ALR_MODE s = negb (anyWidgetActive s =? 0).
Proof. reflexivity. Qed.

Lemma reports_activity_wot s :
  reports_activity WOT_MODE s = negb (anyLpWidgetActive s =? 0).
Proof. reflexivity. Qed.

(** ** The inactivity counter *)

(** C1, as the specification states it, fails in Wake-on-Touch mode: from
    the state reached after 802 idle cycles ([WOT_MODE], counter 0) one
    more idle cycle leaves the counter at 0 instead of raising it to 1. *)
Lemma wot_idle_cycle_does_not_increment :
  final (main_loop (repeat (mkSample 0 0 0) 802) main_init)
    = Some (mkMachine WOT_MODE 0 ALR_MODE_TIMER) /\
  reports_activity WOT_MODE (mkSample 0 0 0) = false /\
  final (main_cycle (mkSample 0 0 0) (mkMachine WOT_MODE 0 ALR_MODE_TIMER))
    = Some (mkMachine ALR_MODE 0 ALR_MODE_TIMER) /\
  appStateTimeoutCount (mkMachine ALR_MODE 0 ALR_MODE_TIMER)
    <> appStateTimeoutCount (mkMachine WOT_MODE 0 ALR_MODE_TIMER) + 1.
Proof.
  split; [vm_compute; reflexivity|].
  split; [reflexivity|].
  split; [vm_compute; reflexivity|].
  cbn [appStateTimeoutCount]. lia.
Qed.

(** C1, amended: a cycle of a valid mode always completes; when its sample
    reports activity the counter is 0 afterwards, in every mode; when it
    reports none, the counter of Active and ALR mode is raised by exactly 1
    as long as the raised value does not exceed the timeout of the mode and
    is 0 otherwise, and the counter of WOT mode is 0. *)
Theorem inactivity_counter_update m s :
  0 <= appStateTimeoutCount m < 2 ^ 32 ->
  appState m = ACTIVE_MODE \/ appState m = ALR_MODE \/ appState m = WOT_MODE ->
  exists m' tr,
    main_cycle s m = Done tt m' tr /\
    (reports_activity (appState m) s = true -> appStateTimeoutCount m' = 0) /\
    (reports_activity (appState m) s = false ->
     (appState m = ACTIVE_MODE ->
      appStateTimeoutCount m' =
      if appStateTimeoutCount m + 1 <=? ACTIVE_MODE_TIMEOUT
      then appStateTimeoutCount m + 1 else 0) /\
     (appState m = ALR_MODE ->
      appStateTimeoutCount m' =
      if appStateTimeoutCount m + 1 <=? ALR_MODE_TIMEOUT
      then appStateTimeoutCount m + 1 else 0) /\
     (appState m = WOT_MODE -> appStateTimeoutCount m' = 0)).
Proof.
  intros Hc [Hm | [Hm | Hm]].
  - destruct (main_cycle_active s m Hm) as (w & _ & Hrun). cbv zeta in Hrun.
    rewrite Hm, reports_activity_active.
    rewrite (wrap32_succ _ Hc), ACTIVE_MODE_TIMEOUT_value in *.
    destruct (anyWidgetActive s =? 0); cbn [negb].
    + destruct (640 <? _) eqn:E; do 2 eexists; (split; [exact Hrun|]);
        (split; [discriminate|]); intros _; cbn [appStateTimeoutCount];
        (split; [intros _ | split; [discriminate | discriminate]]);
        destruct (appStateTimeoutCount m + 1 <? 2 ^ 32) eqn:E1;
        destruct (appStateTimeoutCount m + 1 <=? 640) eqn:E2;
        try reflexivity; lia.
    + do 2 eexists. split; [exact Hrun|]. split; [reflexivity | discriminate].
  - destruct (main_cycle_alr s m Hm) as (w & _ & Hrun). cbv zeta in Hrun.
    rewrite Hm, reports_activity_alr.
    rewrite (wrap32_succ _ Hc), ALR_MODE_TIMEOUT_value in *.
    destruct (anyWidgetActive s =? 0); cbn [negb].
    + destruct (160 <? _) eqn:E; do 2 eexists; (split; [exact Hrun|]);
        (split; [discriminate|]); intros _; cbn [appStateTimeoutCount];
        (split; [discriminate | split; [intros _ | discriminate]]);
        destruct (appStateTimeoutCount m + 1 <? 2 ^ 32) eqn:E1;
        destruct (appStateTimeoutCount m + 1 <=? 160) eqn:E2;
        try reflexivity; lia.
    + do 2 eexists. split; [exact Hrun|]. split; [reflexivity | discriminate].
  - destruct (main_cycle_wot s m Hm) as (w & _ & Hrun). cbv zeta in Hrun.
    rewrite Hm, reports_activity_wot.
    destruct (anyLpWidgetActive s =? 0); do 2 eexists;
      (split; [exact Hrun|]); cbn [appStateTimeoutCount negb];
      (split; [reflexivity || discriminate|]); intros _;
      (split; [discriminate | split; [discriminate | reflexivity]]) || discriminate.
Qed.

Lemma inactivity_counter_update_witness :
  (0 <= 5 < 2 ^ 32) /\
  exists m' tr,
    main_cycle (mkSample 1 0 0) (mkMachine ACTIVE_MODE 5 ACTIVE_MODE_TIMER)
      = Done tt m' tr /\
    appStateTimeoutCount m' = 6.
Proof.
  split; [lia|].
  destruct (inactivity_counter_update
              (mkMachine ACTIVE_MODE 5 ACTIVE_MODE_TIMER) (mkSample 1 0 0))
    as (m' & tr & Hrun & _ & Hidle).
  - cbn [appStateTimeoutCount]. lia.
  - left. reflexivity.
  - exists m', tr. split; [exact Hrun|].
    destruct (Hidle eq_refl) as (Hact & _). apply (Hact eq_refl).
Defined.

(** ** Leaving Active mode *)

(** C2, as the specification states it, fails: with the counter at
    [ACTIVE_MODE_TIMEOUT - 1] = 639, a state reached after 639 idle cycles,
    an idle cycle raises the counter to 640, which does not exceed the
    timeout; the mode stays Active and the timer is not reconfigured. *)
Lemma active_stays_at_timeout_minus_one :
  final (main_loop (repeat (mkSample 0 0 0) 639) main_init)
    = Some (mkMachine ACTIVE_MODE (ACTIVE_MODE_TIMEOUT - 1) ACTIVE_MODE_TIMER) /\
  reports_activity ACTIVE_MODE (mkSample 0 0 0) = false /\
  main_cycle (mkSample 0 0 0)
             (mkMachine ACTIVE_MODE (ACTIVE_MODE_TIMEOUT - 1) ACTIVE_MODE_TIMER)
    = Done tt (mkMachine ACTIVE_MODE ACTIVE_MODE_TIMEOUT ACTIVE_MODE_TIMER)
        [Cy_CapSense_ScanAllSlots;
         Cy_SysLib_EnterCriticalSection;
         Cy_CapSense_IsBusy false;
         Cy_SysLib_ExitCriticalSection;
         Cy_CapSense_ProcessAllWidgets;
         Cy_CapSense_IsAnyWidgetActive 0;
         UpdateLeds; Cy_CapSense_RunTuner] /\
  appState (mkMachine ACTIVE_MODE ACTIVE_MODE_TIMEOUT ACTIVE_MODE_TIMER)
    <> ALR_MODE.
Proof.
  split; [vm_compute; reflexivity|].
  split; [reflexivity|].
  split; [vm_compute; reflexivity|].
  cbn [appState]. discriminate.
Qed.

(** C2, amended: in Active mode an idle cycle raises the counter and
    switches to ALR mode exactly when the raised counter exceeds
    [ACTIVE_MODE_TIMEOUT], that is when the cycle starts with the counter
    at [ACTIVE_MODE_TIMEOUT] or above; the counter is then 0 and the wake
    timer reconfigured, by one call, to [ALR_MODE_TIMER].  Otherwise the
    mode stays Active, the counter is one higher and the timer untouched. *)
Theorem active_mode_timeout_transition m s :
  appState m = ACTIVE_MODE ->
  anyWidgetActive s = 0 ->
  0 <= appStateTimeoutCount m < 2 ^ 32 - 1 ->
  exists m' tr,
    main_cycle s m = Done tt m' tr /\
    if ACTIVE_MODE_TIMEOUT <? appStateTimeoutCount m + 1
    then appState m' = ALR_MODE /\
         appStateTimeoutCount m' = 0 /\
         wakeupTimer m' = ALR_MODE_TIMER /\
         filter is_timer_config tr
           = [Cy_CapSense_ConfigureMsclpTimer ALR_MODE_TIMER]
    else appState m' = ACTIVE_MODE /\
         appStateTimeoutCount m' = appStateTimeoutCount m + 1 /\
         wakeupTimer m' = wakeupTimer m /\
         filter is_timer_config tr = [].
Proof.
  intros Hm Hs Hc.
  destruct (main_cycle_active s m Hm) as (w & Hf & Hrun). cbv zeta in Hrun.
  rewrite Hs in Hrun. cbn [Z.eqb] in Hrun.
  rewrite wrap32_small in Hrun by lia.
  destruct (ACTIVE_MODE_TIMEOUT <? appStateTimeoutCount m + 1);
    do 2 eexists; (split; [exact Hrun|]);
    cbn [appState appStateTimeoutCount wakeupTimer];
    repeat split; filter_trace Hf; reflexivity.
Qed.

Lemma active_mode_timeout_transition_witness :
  (0 <= ACTIVE_MODE_TIMEOUT < 2 ^ 32 - 1) /\
  exists m' tr,
    main_cycle (mkSample 3 0 0)
               (mkMachine ACTIVE_MODE ACTIVE_MODE_TIMEOUT ACTIVE_MODE_TIMER)
      = Done tt m' tr /\
    appState m' = ALR_MODE /\
    appStateTimeoutCount m' = 0 /\
    wakeupTimer m' = ALR_MODE_TIMER /\
    filter is_timer_config tr
      = [Cy_CapSense_ConfigureMsclpTimer ALR_MODE_TIMER].
Proof.
  split; [rewrite ACTIVE_MODE_TIMEOUT_value; lia|].
  apply (active_mode_timeout_transition
           (mkMachine ACTIVE_MODE ACTIVE_MODE_TIMEOUT ACTIVE_MODE_TIMER)
           (mkSample 3 0 0)).
  - reflexivity.
  - reflexivity.
  - cbn [appStateTimeoutCount]. rewrite ACTIVE_MODE_TIMEOUT_value. lia.
Defined.

(** ** Wake-on-Touch mode *)

(** C3: a cycle entered in WOT mode completes, makes one scan call (of the
    low-power slots) and one activity query (of the low-power widgets),
    and leaves WOT mode: for Active mode with the timer reconfigured to
    [ACTIVE_MODE_TIMER] when a low-power widget is active, for ALR mode
    with the timer reconfigured to [ALR_MODE_TIMER] otherwise. *)
Theorem wot_cycle_exits m s :
  appState m = WOT_MODE ->
  exists m' tr,
    main_cycle s m = Done tt m' tr /\
    filter is_scan tr = [Cy_CapSense_ScanAllLpSlots] /\
    filter is_evaluate tr
      = [Cy_CapSense_IsAnyLpWidgetActive (anyLpWidgetActive s)] /\
    (if reports_activity WOT_MODE s
     then appState m' = ACTIVE_MODE /\
          wakeupTimer m' = ACTIVE_MODE_TIMER /\
          filter is_timer_config tr
            = [Cy_CapSense_ConfigureMsclpTimer ACTIVE_MODE_TIMER]
     else appState m' = ALR_MODE /\
          wakeupTimer m' = ALR_MODE_TIMER /\
          filter is_timer_config tr
            = [Cy_CapSense_ConfigureMsclpTimer ALR_MODE_TIMER]) /\
    appState m' <> WOT_MODE.
Proof.
  intros Hm.
  destruct (main_cycle_wot s m Hm) as (w & Hf & Hrun). cbv zeta in Hrun.
  rewrite reports_activity_wot.
  destruct (anyLpWidgetActive s =? 0); do 2 eexists;
    (split; [exact Hrun|]); cbn [negb appState wakeupTimer];
    repeat split; filter_trace Hf; try reflexivity; discriminate.
Qed.

Lemma wot_cycle_exits_witness :
  exists m' tr,
    main_cycle (mkSample 2 0 1) (mkMachine WOT_MODE 0 ALR_MODE_TIMER)
      = Done tt m' tr /\
    filter is_scan tr = [Cy_CapSense_ScanAllLpSlots] /\
    filter is_evaluate tr = [Cy_CapSense_IsAnyLpWidgetActive 1] /\
    (appState m' = ACTIVE_MODE /\
     wakeupTimer m' = ACTIVE_MODE_TIMER /\
     filter is_timer_config tr
       = [Cy_CapSense_ConfigureMsclpTimer ACTIVE_MODE_TIMER]) /\
    appState m' <> WOT_MODE.
Proof.
  apply (wot_cycle_exits (mkMachine WOT_MODE 0 ALR_MODE_TIMER)
                         (mkSample 2 0 1)).
  reflexivity.
Defined.

(** ** Mode changes and the wake timer *)

(** Every cycle that changes the mode either is the change from ALR to
    WOT, which makes no timer call, or makes exactly one timer call. *)
Lemma mode_change_timer m s m' tr :
  main_cycle s m = Done tt m' tr ->
  appState m' <> appState m ->
  (appState m = ALR_MODE /\ appState m' = WOT_MODE /\
   filter is_timer_config tr = [] /\ wakeupTimer m' = wakeupTimer m) \/
  filter is_timer_config tr
    = [Cy_CapSense_ConfigureMsclpTimer (wakeupTimer m')].
Proof.
  intros Hrun Hneq.
  destruct (Z.eq_dec (appState m) ACTIVE_MODE) as [Ha|Ha];
    [|destruct (Z.eq_dec (appState m) ALR_MODE) as [Hl|Hl];
      [|destruct (Z.eq_dec (appState m) WOT_MODE) as [Hw|Hw]]].
  - destruct (main_cycle_active s m Ha) as (w & Hf & Hr). cbv zeta in Hr.
    rewrite Hrun in Hr.
    destruct (anyWidgetActive s =? 0);
      [destruct (ACTIVE_MODE_TIMEOUT <? _)|];
      injection Hr as -> ->; cbn [appState wakeupTimer] in *;
      try congruence.
    right. filter_trace Hf. reflexivity.
  - destruct (main_cycle_alr s m Hl) as (w & Hf & Hr). cbv zeta in Hr.
    rewrite Hrun in Hr.
    destruct (anyWidgetActive s =? 0);
      [destruct (ALR_MODE_TIMEOUT <? _)|];
      injection Hr as -> ->; cbn [appState wakeupTimer] in *;
      try congruence.
    + left. repeat split; try assumption. filter_trace Hf. reflexivity.
    + right. filter_trace Hf. reflexivity.
  - destruct (main_cycle_wot s m Hw) as (w & Hf & Hr). cbv zeta in Hr.
    rewrite Hrun in Hr.
    destruct (anyLpWidgetActive s =? 0);
      injection Hr as -> ->; cbn [appState wakeupTimer] in *;
      right; filter_trace Hf; reflexivity.
  - rewrite (main_cycle_default s m Ha Hl Hw) in Hrun. discriminate.
Qed.

(** C6: in ALR mode, an idle cycle whose raised counter exceeds
    [ALR_MODE_TIMEOUT] switches to WOT mode with the counter at 0, leaves
    the wake timer as it was and makes no timer call; every other cycle
    that changes the mode makes exactly one timer call. *)
Theorem alr_to_wot_keeps_timer m s :
  appState m = ALR_MODE ->
  anyWidgetActive s = 0 ->
  ALR_MODE_TIMEOUT < wrap32 (appStateTimeoutCount m + 1) ->
  (exists m' tr,
     main_cycle s m = Done tt m' tr /\
     appState m' = WOT_MODE /\
     appStateTimeoutCount m' = 0 /\
     wakeupTimer m' = wakeupTimer m /\
     filter is_timer_config tr = []) /\
  (forall m0 s0 m1 tr1,
     main_cycle s0 m0 = Done tt m1 tr1 ->
     appState m1 <> appState m0 ->
     ~ (appState m0 = ALR_MODE /\ appState m1 = WOT_MODE) ->
     filter is_timer_config tr1
       = [Cy_CapSense_ConfigureMsclpTimer (wakeupTimer m1)]).
Proof.
  intros Hm Hs Hc. split.
  - destruct (main_cycle_alr s m Hm) as (w & Hf & Hrun). cbv zeta in Hrun.
    rewrite Hs in Hrun. cbn [Z.eqb] in Hrun.
    apply Z.ltb_lt in Hc. rewrite Hc in Hrun.
    do 2 eexists. split; [exact Hrun|].
    cbn [appState appStateTimeoutCount wakeupTimer].
    repeat split. filter_trace Hf. reflexivity.
  - intros m0 s0 m1 tr1 Hrun Hneq Hnot.
    destruct (mode_change_timer m0 s0 m1 tr1 Hrun Hneq)
      as [(H1 & H2 & _) | H]; [|exact H].
    exfalso. apply Hnot. split; assumption.
Qed.

Lemma alr_to_wot_keeps_timer_witness :
  ALR_MODE_TIMEOUT < wrap32 (ALR_MODE_TIMEOUT + 1) /\
  exists m' tr,
    main_cycle (mkSample 1 0 0)
               (mkMachine ALR_MODE ALR_MODE_TIMEOUT ALR_MODE_TIMER)
      = Done tt m' tr /\
    appState m' = WOT_MODE /\
    appStateTimeoutCount m' = 0 /\
    wakeupTimer m' = ALR_MODE_TIMER /\
    filter is_timer_config tr = [].
Proof.
  split; [reflexivity|].
  apply (alr_to_wot_keeps_timer
           (mkMachine ALR_MODE ALR_MODE_TIMEOUT ALR_MODE_TIMER)
           (mkSample 1 0 0)).
  - reflexivity.
  - reflexivity.
  - reflexivity.
Defined.

(** ** Unknown modes *)

(** C7: when [appState] holds none of the three modes, the [switch] takes
    its [default] label and the assertion stops the program: the cycle
    makes no call (no scan, no timer call, no LED or tuner update) and no
    later cycle runs. *)
Theorem unknown_mode_halts m s ss :
  appState m <> ACTIVE_MODE ->
  appState m <> ALR_MODE ->
  appState m <> WOT_MODE ->
  dispatch s m = CY_ASSERT CY_ASSERT_FAILED m /\
  main_cycle s m = Halted [] /\
  main_loop (s :: ss) m = Halted [].
Proof.
  intros H1 H2 H3. split; [|split].
  - rewrite (dispatch_default s m H1 H2 H3). reflexivity.
  - apply main_cycle_default; assumption.
  - cbn [main_loop]. unfold bind at 1.
    rewrite (main_cycle_default s m H1 H2 H3). reflexivity.
Qed.

Lemma unknown_mode_halts_witness :
  main_cycle (mkSample 0 1 1) (mkMachine 4 0 ACTIVE_MODE_TIMER) = Halted [] /\
  main_loop [mkSample 0 1 1; mkSample 0 0 0] (mkMachine 0 7 ALR_MODE_TIMER)
    = Halted [].
Proof.
  split.
  - apply (unknown_mode_halts (mkMachine 4 0 ACTIVE_MODE_TIMER)
                              (mkSample 0 1 1) []);
      cbn [appState]; discriminate.
  - apply (unknown_mode_halts (mkMachine 0 7 ALR_MODE_TIMER)
                              (mkSample 0 1 1) [mkSample 0 0 0]);
      cbn [appState]; discriminate.
Defined.

(** ** The loop invariant *)

Lemma loop_invariant_init : loop_invariant main_init.
Proof.
  left. split; [reflexivity|].
  rewrite ACTIVE_MODE_TIMEOUT_value. cbn [main_init appStateTimeoutCount]. lia.
Qed.

Lemma loop_invariant_valid_mode m :
  loop_invariant m ->
  appState m = ACTIVE_MODE \/ appState m = ALR_MODE \/ appState m = WOT_MODE.
Proof. intros [[H _] | [[H _] | [H _]]]; auto. Qed.

Lemma loop_invariant_range m :
  loop_invariant m -> 0 <= appStateTimeoutCount m < 2 ^ 32 - 1.
Proof.
  unfold loop_invariant.
  rewrite ACTIVE_MODE_TIMEOUT_value, ALR_MODE_TIMEOUT_value. lia.
Qed.

(** A cycle started under the invariant completes, re-establishes the
    invariant, and ends with the counter at 0 if it changed the mode. *)
Lemma main_cycle_invariant m s :
  loop_invariant m ->
  exists m' tr,
    main_cycle s m = Done tt m' tr /\
    loop_invariant m' /\
    (appState m' <> appState m -> appStateTimeoutCount m' = 0).
Proof.
  intros Hinv. pose proof (loop_invariant_range m Hinv) as Hr.
  unfold loop_invariant in *.
  rewrite ACTIVE_MODE_TIMEOUT_value, ALR_MODE_TIMEOUT_value in *.
  destruct Hinv as [[Hm Hc] | [[Hm Hc] | [Hm Hc]]].
  - destruct (main_cycle_active s m Hm) as (w & _ & Hrun). cbv zeta in Hrun.
    rewrite wrap32_small, ACTIVE_MODE_TIMEOUT_value in Hrun by lia.
    destruct (anyWidgetActive s =? 0);
      [destruct (640 <? appStateTimeoutCount m + 1) eqn:E|];
      do 2 eexists; (split; [exact Hrun|]);
      cbn [appState appStateTimeoutCount];
      (split; [| intros; try reflexivity; congruence]).
    + right. left. split; [reflexivity | lia].
    + left. split; [reflexivity | lia].
    + left. split; [reflexivity | lia].
  - destruct (main_cycle_alr s m Hm) as (w & _ & Hrun). cbv zeta in Hrun.
    rewrite wrap32_small, ALR_MODE_TIMEOUT_value in Hrun by lia.
    destruct (anyWidgetActive s =? 0);
      [destruct (160 <? appStateTimeoutCount m + 1) eqn:E|];
      do 2 eexists; (split; [exact Hrun|]);
      cbn [appState appStateTimeoutCount];
      (split; [| intros; try reflexivity; congruence]).
    + right. right. split; reflexivity.
    + right. left. split; [reflexivity | lia].
    + left. split; [reflexivity | lia].
  - destruct (main_cycle_wot s m Hm) as (w & _ & Hrun). cbv zeta in Hrun.
    destruct (anyLpWidgetActive s =? 0);
      do 2 eexists; (split; [exact Hrun|]);
      cbn [appState appStateTimeoutCount];
      (split; [| intros; reflexivity]).
    + right. left. split; [reflexivity | lia].
    + left. split; [reflexivity | lia].
Qed.

Lemma main_loop_invariant ss :
  forall m, loop_invariant m ->
  exists m' tr, main_loop ss m = Done tt m' tr /\ loop_invariant m'.
Proof.
  induction ss as [|s rest IH]; intros m Hinv.
  - exists m, []. split; [reflexivity | exact Hinv].
  - destruct (main_cycle_invariant m s Hinv) as (m1 & t1 & Hrun & Hinv1 & _).
    destruct (IH m1 Hinv1) as (m2 & t2 & Hrest & Hinv2).
    exists m2, (t1 ++ t2). split; [|exact Hinv2].
    cbn [main_loop]. rewrite (bind_Done _ _ _ _ _ _ Hrun), Hrest. reflexivity.
Qed.

(** C9: every state the loop reaches from ([ACTIVE_MODE], 0) has its
    counter at most [ACTIVE_MODE_TIMEOUT + 1] in Active mode and at most
    [ALR_MODE_TIMEOUT + 1] in ALR mode, also at the point inside the next
    cycle where the counter has been raised; and every next cycle
    completes and ends with the counter at 0 if it changes the mode. *)
Theorem counter_bounded_on_reachable ss :
  exists m tr,
    main_loop ss main_init = Done tt m tr /\
    (appState m = ACTIVE_MODE ->
     appStateTimeoutCount m <= ACTIVE_MODE_TIMEOUT + 1 /\
     wrap32 (appStateTimeoutCount m + 1) <= ACTIVE_MODE_TIMEOUT + 1) /\
    (appState m = ALR_MODE ->
     appStateTimeoutCount m <= ALR_MODE_TIMEOUT + 1 /\
     wrap32 (appStateTimeoutCount m + 1) <= ALR_MODE_TIMEOUT + 1) /\
    (forall s, exists m' tr',
       main_cycle s m = Done tt m' tr' /\
       (appState m' <> appState m -> appStateTimeoutCount m' = 0)).
Proof.
  destruct (main_loop_invariant ss main_init loop_invariant_init)
    as (m & tr & Hrun & Hinv).
  exists m, tr. split; [exact Hrun|].
  pose proof (loop_invariant_range m Hinv) as Hr.
  split; [|split].
  - intros Hm. rewrite wrap32_small by lia.
    destruct Hinv as [[_ Hc] | [[Hm' _] | [Hm' _]]];
      [lia | rewrite Hm in Hm'; discriminate | rewrite Hm in Hm'; discriminate].
  - intros Hm. rewrite wrap32_small by lia.
    destruct Hinv as [[Hm' _] | [[_ Hc] | [Hm' _]]];
      [rewrite Hm in Hm'; discriminate | lia | rewrite Hm in Hm'; discriminate].
  - intros s.
    destruct (main_cycle_invariant m s Hinv) as (m' & tr' & Hc & _ & Hz).
    exists m', tr'. split; assumption.
Qed.

(** ** The wake-timer reload value *)

Lemma period_bound rate : 0 < rate -> 0 <= TIME_IN_US / rate <= TIME_IN_US.
Proof.
  intros H. split.
  - apply Z.div_pos; [unfold TIME_IN_US; lia | exact H].
  - apply Z.div_le_upper_bound; [exact H|]. unfold TIME_IN_US. nia.
Qed.

(** When the period exceeds the scan and process time, no operation of the
    macro wraps and the reload value is the plain difference. *)
Lemma MODE_TIMER_margin rate scan process :
  0 < rate -> 0 <= scan -> 0 <= process ->
  scan + process < TIME_IN_US / rate ->
  MODE_TIMER rate scan process = TIME_IN_US / rate - (scan + process).
Proof.
  intros Hr Hs Hp Hlt. pose proof (period_bound rate Hr) as Hb.
  unfold TIME_IN_US in Hb at 3.
  unfold MODE_TIMER, wrap_umax.
  rewrite (Z.mod_small (scan + process)) by lia.
  apply Z.ltb_lt in Hlt. rewrite Hlt.
  rewrite (wrap32_small (scan + process)) by lia.
  apply wrap32_small. apply Z.ltb_lt in Hlt. lia.
Qed.

(** The group under the [#elif], read as the alternative of the [#if]. *)
Lemma MODE_TIMER_alternative rate scan process :
  0 <= scan -> 0 <= process -> scan + process < 2 ^ 64 ->
  TIME_IN_US / rate <= scan + process ->
  MODE_TIMER rate scan process = MINIMUM_TIMER.
Proof.
  intros Hs Hp Hmax Hge. unfold MODE_TIMER, wrap_umax.
  rewrite (Z.mod_small (scan + process)) by lia.
  apply Z.ltb_ge in Hge. rewrite Hge. reflexivity.
Qed.

(** C4, as the specification states it, fails: the reload value is not
    floored at the minimum tick.  With a refresh rate of 341 Hz and the
    configured scan and process times the period is 2932 us, the margin is
    18 us and the macro yields 18, below [MINIMUM_TIMER] = 25. *)
Lemma reload_below_minimum_tick :
  MINIMUM_TIMER = 25 /\
  TIME_IN_US / 341 - (ACTIVE_MODE_FRAME_SCAN_TIME + ACTIVE_MODE_PROCESS_TIME)
    = 18 /\
  MODE_TIMER 341 ACTIVE_MODE_FRAME_SCAN_TIME ACTIVE_MODE_PROCESS_TIME = 18 /\
  MODE_TIMER 341 ACTIVE_MODE_FRAME_SCAN_TIME ACTIVE_MODE_PROCESS_TIME
    <> Z.max MINIMUM_TIMER
         (TIME_IN_US / 341
          - (ACTIVE_MODE_FRAME_SCAN_TIME + ACTIVE_MODE_PROCESS_TIME)).
Proof. vm_compute. repeat split. discriminate. Qed.

(** C4, amended: whenever the period [TIME_IN_US / rate] exceeds the scan
    plus process time, the reload value is their difference; it is
    positive, and it equals [max MINIMUM_TIMER difference] exactly when the
    difference is at least [MINIMUM_TIMER].  That is the case for the
    configured constants: [ACTIVE_MODE_TIMER] is 7812 - 2914 = 4898 and
    [ALR_MODE_TIMER] is 31250 - 2914 = 28336. *)
Theorem timer_reload_value rate scan process :
  0 < rate -> 0 <= scan -> 0 <= process ->
  scan + process < TIME_IN_US / rate ->
  MODE_TIMER rate scan process = TIME_IN_US / rate - (scan + process) /\
  0 < MODE_TIMER rate scan process /\
  (MODE_TIMER rate scan process
     = Z.max MINIMUM_TIMER (TIME_IN_US / rate - (scan + process))
   <-> MINIMUM_TIMER <= TIME_IN_US / rate - (scan + process)) /\
  ACTIVE_MODE_TIMER = 4898 /\
  ACTIVE_MODE_TIMER
    = Z.max MINIMUM_TIMER
        (TIME_IN_US / ACTIVE_MODE_REFRESH_RATE
         - (ACTIVE_MODE_FRAME_SCAN_TIME + ACTIVE_MODE_PROCESS_TIME)) /\
  ALR_MODE_TIMER = 28336 /\
  ALR_MODE_TIMER
    = Z.max MINIMUM_TIMER
        (TIME_IN_US / ALR_MODE_REFRESH_RATE
         - (ALR_MODE_FRAME_SCAN_TIME + ALR_MODE_PROCESS_TIME)).
Proof.
  intros Hr Hs Hp Hlt.
  rewrite (MODE_TIMER_margin rate scan process Hr Hs Hp Hlt).
  repeat split; try reflexivity; try lia.
Qed.

Lemma timer_reload_value_witness :
  (ACTIVE_MODE_FRAME_SCAN_TIME + ACTIVE_MODE_PROCESS_TIME
     < TIME_IN_US / ACTIVE_MODE_REFRESH_RATE) /\
  MODE_TIMER ACTIVE_MODE_REFRESH_RATE
             ACTIVE_MODE_FRAME_SCAN_TIME ACTIVE_MODE_PROCESS_TIME
    = TIME_IN_US / ACTIVE_MODE_REFRESH_RATE
      - (ACTIVE_MODE_FRAME_SCAN_TIME + ACTIVE_MODE_PROCESS_TIME).
Proof.
  split; [reflexivity|].
  apply (timer_reload_value ACTIVE_MODE_REFRESH_RATE
           ACTIVE_MODE_FRAME_SCAN_TIME ACTIVE_MODE_PROCESS_TIME);
    reflexivity || discriminate.
Defined.

(** ** The deep-sleep callback *)

(** C5: for each of the four phases the callback returns
    [CY_SYSPM_SUCCESS]; the readiness check in particular never answers
    [CY_SYSPM_FAIL], and the two check phases leave the pins alone. *)
Theorem deep_sleep_phases_succeed port pin g :
  fst (DeepSleepCallback port pin CY_SYSPM_CHECK_READY g) = CY_SYSPM_SUCCESS /\
  fst (DeepSleepCallback port pin CY_SYSPM_CHECK_FAIL g) = CY_SYSPM_SUCCESS /\
  fst (DeepSleepCallback port pin CY_SYSPM_BEFORE_TRANSITION g)
    = CY_SYSPM_SUCCESS /\
  fst (DeepSleepCallback port pin CY_SYSPM_AFTER_TRANSITION g)
    = CY_SYSPM_SUCCESS /\
  fst (DeepSleepCallback port pin CY_SYSPM_CHECK_READY g) <> CY_SYSPM_FAIL /\
  snd (DeepSleepCallback port pin CY_SYSPM_CHECK_READY g) = g /\
  snd (DeepSleepCallback port pin CY_SYSPM_CHECK_FAIL g) = g.
Proof. repeat split. discriminate. Qed.

(** C10: whatever value the phase argument holds, one of the four
    enumerators or not, the callback returns [CY_SYSPM_SUCCESS]. *)
Theorem deep_sleep_callback_total port pin mode g :
  fst (DeepSleepCallback port pin mode g) = CY_SYSPM_SUCCESS.
Proof.
  unfold DeepSleepCallback.
  destruct (mode =? CY_SYSPM_CHECK_READY); [reflexivity|].
  destruct (mode =? CY_SYSPM_CHECK_FAIL); [reflexivity|].
  destruct (mode =? CY_SYSPM_BEFORE_TRANSITION); [reflexivity|].
  destruct (mode =? CY_SYSPM_AFTER_TRANSITION); reflexivity.
Qed.

Lemma Cy_GPIO_SetDrivemode_same port pin v g :
  Cy_GPIO_SetDrivemode port pin v g port pin = v.
Proof. unfold Cy_GPIO_SetDrivemode. rewrite !Z.eqb_refl. reflexivity. Qed.

Lemma Cy_GPIO_SetDrivemode_other port pin v g p n :
  (p =? port) && (n =? pin) = false ->
  Cy_GPIO_SetDrivemode port pin v g p n = g p n.
Proof. intros H. unfold Cy_GPIO_SetDrivemode. rewrite H. reflexivity. Qed.

Lemma sleep_and_wake_unfold port pin g :
  sleep_and_wake port pin g
  = Cy_GPIO_SetDrivemode port pin CY_GPIO_DM_STRONG_IN_OFF
      (Cy_GPIO_SetDrivemode port pin CY_GPIO_DM_ANALOG g).
Proof. reflexivity. Qed.

(** C8, as the specification states it, fails: a pin that is in analog
    high-Z mode before [CY_SYSPM_BEFORE_TRANSITION] is in strong drive
    mode, not back in analog mode, after [CY_SYSPM_AFTER_TRANSITION]. *)
Lemma wake_does_not_restore_analog :
  sleep_and_wake 0 0 (fun _ _ => CY_GPIO_DM_ANALOG) 0 0
    = CY_GPIO_DM_STRONG_IN_OFF /\
  sleep_and_wake 0 0 (fun _ _ => CY_GPIO_DM_ANALOG) 0 0
    <> (fun _ _ : Z => CY_GPIO_DM_ANALOG) 0 0.
Proof. split; [reflexivity | discriminate]. Qed.

(** C8, amended: [CY_SYSPM_BEFORE_TRANSITION] puts the serial-LED pin in
    [CY_GPIO_DM_ANALOG]; the following [CY_SYSPM_AFTER_TRANSITION] puts it
    in [CY_GPIO_DM_STRONG_IN_OFF] whatever its mode was before, so the pair
    restores the earlier configuration exactly when that was
    [CY_GPIO_DM_STRONG_IN_OFF]; every other pin keeps its mode. *)
Theorem sleep_wake_pin_configuration port pin g :
  snd (DeepSleepCallback port pin CY_SYSPM_BEFORE_TRANSITION g) port pin
    = CY_GPIO_DM_ANALOG /\
  sleep_and_wake port pin g port pin = CY_GPIO_DM_STRONG_IN_OFF /\
  (sleep_and_wake port pin g port pin = g port pin
   <-> g port pin = CY_GPIO_DM_STRONG_IN_OFF) /\
  (forall p n, (p =? port) && (n =? pin) = false ->
               sleep_and_wake port pin g p n = g p n).
Proof.
  rewrite sleep_and_wake_unfold.
  change (snd (DeepSleepCallback port pin CY_SYSPM_BEFORE_TRANSITION g))
    with (Cy_GPIO_SetDrivemode port pin CY_GPIO_DM_ANALOG g).
  rewrite !Cy_GPIO_SetDrivemode_same.
  split; [reflexivity|]. split; [reflexivity|]. split.
  - split; intros H; congruence.
  - intros p n H. rewrite !Cy_GPIO_SetDrivemode_other by exact H. reflexivity.
Qed.

(** * Further properties of the loop *)

(** ** The calls of the wait loops *)

Lemma while_busy_trace (body : M unit) tb :
  (forall m, body m = Done tt m tb) ->
  forall n m, while_busy n body m = Done tt m (busy_polls n tb).
Proof.
  intros Hbody n. induction n as [|k IH]; intros m; [reflexivity|].
  cbn [while_busy busy_polls]. unfold bind at 1. cbn [emit].
  rewrite (bind_Done _ _ _ _ _ _ (Hbody m)), IH. reflexivity.
Qed.

Lemma await_scan_trace n m : await_scan n m = Done tt m (scan_wait n).
Proof.
  unfold await_scan. unfold bind at 1. cbn [emit].
  rewrite (bind_Done _ _ m tt m
             (busy_polls n [Cy_SysPm_CpuEnterDeepSleep;
                            Cy_SysLib_ExitCriticalSection;
                            Cy_SysLib_EnterCriticalSection])).
  - reflexivity.
  - apply while_busy_trace. intros m0. reflexivity.
Qed.

Lemma await_lp_scan_trace n m :
  await_lp_scan n m = Done tt m (lp_scan_wait n).
Proof. apply while_busy_trace. intros m0. reflexivity. Qed.

Lemma main_cycle_active_trace s m :
  appState m = ACTIVE_MODE ->
  let pre := Cy_CapSense_ScanAllSlots :: scan_wait (busyPolls s) ++
             [Cy_CapSense_ProcessAllWidgets;
              Cy_CapSense_IsAnyWidgetActive (anyWidgetActive s)] in
  let post := [UpdateLeds; Cy_CapSense_RunTuner] in
  main_cycle s m =
  if anyWidgetActive s =? 0 then
    if ACTIVE_MODE_TIMEOUT <? wrap32 (appStateTimeoutCount m + 1)
    then Done tt (mkMachine ALR_MODE 0 ALR_MODE_TIMER)
           ((pre ++ [Cy_CapSense_ConfigureMsclpTimer ALR_MODE_TIMER]) ++ post)
    else Done tt (mkMachine ACTIVE_MODE
                            (wrap32 (appStateTimeoutCount m + 1))
                            (wakeupTimer m)) (pre ++ post)
  else Done tt (mkMachine ACTIVE_MODE 0 (wakeupTimer m)) (pre ++ post).
Proof.
  intros Hm pre post. subst pre post.
  assert (Hrun : active_mode_case s m =
    if anyWidgetActive s =? 0 then
      if ACTIVE_MODE_TIMEOUT <? wrap32 (appStateTimeoutCount m + 1)
      then Done tt (mkMachine ALR_MODE 0 ALR_MODE_TIMER)
             ((Cy_CapSense_ScanAllSlots :: scan_wait (busyPolls s) ++
               [Cy_CapSense_ProcessAllWidgets;
                Cy_CapSense_IsAnyWidgetActive (anyWidgetActive s)])
              ++ [Cy_CapSense_ConfigureMsclpTimer ALR_MODE_TIMER])
      else Done tt (mkMachine ACTIVE_MODE
                              (wrap32 (appStateTimeoutCount m + 1))
                              (wakeupTimer m))
             (Cy_CapSense_ScanAllSlots :: scan_wait (busyPolls s) ++
              [Cy_CapSense_ProcessAllWidgets;
               Cy_CapSense_IsAnyWidgetActive (anyWidgetActive s)])
    else Done tt (mkMachine ACTIVE_MODE 0 (wakeupTimer m))
           (Cy_CapSense_ScanAllSlots :: scan_wait (busyPolls s) ++
            [Cy_CapSense_ProcessAllWidgets;
             Cy_CapSense_IsAnyWidgetActive (anyWidgetActive s)])).
  { unfold active_mode_case.
    run_case (await_scan_trace (busyPolls s) m).
    destruct (anyWidgetActive s =? 0); cbn [negb];
      [destruct (ACTIVE_MODE_TIMEOUT <? wrap32 (appStateTimeoutCount m + 1))|];
      cbn [app]; rewrite ?Hm, ?app_nil_r, <- ?app_assoc; reflexivity. }
  rewrite <- (dispatch_active s m Hm) in Hrun.
  destruct (anyWidgetActive s =? 0);
    [destruct (ACTIVE_MODE_TIMEOUT <? wrap32 (appStateTimeoutCount m + 1))|];
    apply main_cycle_Done; exact Hrun.
Qed.

Lemma main_cycle_alr_trace s m :
  appState m = ALR_MODE ->
  let pre := Cy_CapSense_ScanAllSlots :: scan_wait (busyPolls s) ++
             [Cy_CapSense_ProcessAllWidgets;
              Cy_CapSense_IsAnyWidgetActive (anyWidgetActive s)] in
  let post := [UpdateLeds; Cy_CapSense_RunTuner] in
  main_cycle s m =
  if anyWidgetActive s =? 0 then
    if ALR_MODE_TIMEOUT <? wrap32 (appStateTimeoutCount m + 1)
    then Done tt (mkMachine WOT_MODE 0 (wakeupTimer m)) (pre ++ post)
    else Done tt (mkMachine ALR_MODE
                            (wrap32 (appStateTimeoutCount m + 1))
                            (wakeupTimer m)) (pre ++ post)
  else Done tt (mkMachine ACTIVE_MODE 0 ACTIVE_MODE_TIMER)
         ((pre ++ [Cy_CapSense_ConfigureMsclpTimer ACTIVE_MODE_TIMER]) ++ post).
Proof.
  intros Hm pre post. subst pre post.
  assert (Hrun : alr_mode_case s m =
    if anyWidgetActive s =? 0 then
      if ALR_MODE_TIMEOUT <? wrap32 (appStateTimeoutCount m + 1)
      then Done tt (mkMachine WOT_MODE 0 (wakeupTimer m))
             (Cy_CapSense_ScanAllSlots :: scan_wait (busyPolls s) ++
              [Cy_CapSense_ProcessAllWidgets;
               Cy_CapSense_IsAnyWidgetActive (anyWidgetActive s)])
      else Done tt (mkMachine ALR_MODE
                              (wrap32 (appStateTimeoutCount m + 1))
                              (wakeupTimer m))
             (Cy_CapSense_ScanAllSlots :: scan_wait (busyPolls s) ++
              [Cy_CapSense_ProcessAllWidgets;
               Cy_CapSense_IsAnyWidgetActive (anyWidgetActive s)])
    else Done tt (mkMachine ACTIVE_MODE 0 ACTIVE_MODE_TIMER)
           ((Cy_CapSense_ScanAllSlots :: scan_wait (busyPolls s) ++
             [Cy_CapSense_ProcessAllWidgets;
              Cy_CapSense_IsAnyWidgetActive (anyWidgetActive s)])
            ++ [Cy_CapSense_ConfigureMsclpTimer ACTIVE_MODE_TIMER])).
  { unfold alr_mode_case.
    run_case (await_scan_trace (busyPolls s) m).
    destruct (anyWidgetActive s =? 0); cbn [negb];
      [destruct (ALR_MODE_TIMEOUT <? wrap32 (appStateTimeoutCount m + 1))|];
      cbn [app]; rewrite ?Hm, ?app_nil_r, <- ?app_assoc; reflexivity. }
  rewrite <- (dispatch_alr s m Hm) in Hrun.
  destruct (anyWidgetActive s =? 0);
    [destruct (ALR_MODE_TIMEOUT <? wrap32 (appStateTimeoutCount m + 1))|];
    apply main_cycle_Done; exact Hrun.
Qed.

Lemma main_cycle_wot_trace s m :
  appState m = WOT_MODE ->
  let pre := Cy_CapSense_ScanAllLpSlots :: lp_scan_wait (busyPolls s) ++
             [Cy_CapSense_ProcessWidget CY_CAPSENSE_LOWPOWER0_WDGT_ID;
              Cy_CapSense_IsAnyLpWidgetActive (anyLpWidgetActive s)] in
  let post := [UpdateLeds; Cy_CapSense_RunTuner] in
  main_cycle s m =
  if anyLpWidgetActive s =? 0
  then Done tt (mkMachine ALR_MODE 0 ALR_MODE_TIMER)
         ((pre ++ [Cy_CapSense_ConfigureMsclpTimer ALR_MODE_TIMER]) ++ post)
  else Done tt (mkMachine ACTIVE_MODE 0 ACTIVE_MODE_TIMER)
         ((pre ++ [Cy_CapSense_ConfigureMsclpTimer ACTIVE_MODE_TIMER]) ++ post).
Proof.
  intros Hm pre post. subst pre post.
  assert (Hrun : wot_mode_case s m =
    if anyLpWidgetActive s =? 0
    then Done tt (mkMachine ALR_MODE 0 ALR_MODE_TIMER)
           ((Cy_CapSense_ScanAllLpSlots :: lp_scan_wait (busyPolls s) ++
             [Cy_CapSense_ProcessWidget CY_CAPSENSE_LOWPOWER0_WDGT_ID;
              Cy_CapSense_IsAnyLpWidgetActive (anyLpWidgetActive s)])
            ++ [Cy_CapSense_ConfigureMsclpTimer ALR_MODE_TIMER])
    else Done tt (mkMachine ACTIVE_MODE 0 ACTIVE_MODE_TIMER)
           ((Cy_CapSense_ScanAllLpSlots :: lp_scan_wait (busyPolls s) ++
             [Cy_CapSense_ProcessWidget CY_CAPSENSE_LOWPOWER0_WDGT_ID;
              Cy_CapSense_IsAnyLpWidgetActive (anyLpWidgetActive s)])
            ++ [Cy_CapSense_ConfigureMsclpTimer ACTIVE_MODE_TIMER])).
  { unfold wot_mode_case.
    run_case (await_lp_scan_trace (busyPolls s) m).
    destruct (anyLpWidgetActive s =? 0); cbn [negb app];
      rewrite ?app_nil_r, <- ?app_assoc; reflexivity. }
  rewrite <- (dispatch_wot s m Hm) in Hrun.
  destruct (anyLpWidgetActive s =? 0); apply main_cycle_Done; exact Hrun.
Qed.

(** Facts about the calls of a wait loop. *)

Lemma busy_polls_sleeps n body :
  length (filter is_deep_sleep (busy_polls n body))
  = (n * length (filter is_deep_sleep body))%nat.
Proof.
  induction n as [|k IH]; [reflexivity|].
  cbn [busy_polls filter is_deep_sleep]. rewrite filter_app, length_app, IH.
  reflexivity.
Qed.

Lemma busy_polls_guarded n rest :
  guarded_sleep true
    (busy_polls n [Cy_SysPm_CpuEnterDeepSleep;
                   Cy_SysLib_ExitCriticalSection;
                   Cy_SysLib_EnterCriticalSection] ++ rest)
  = guarded_sleep true rest.
Proof.
  induction n as [|k IH]; [reflexivity|].
  cbn [busy_polls app guarded_sleep andb negb]. exact IH.
Qed.

Lemma busy_polls_no_critical n :
  filter is_critical (busy_polls n [Cy_SysPm_CpuEnterDeepSleep]) = [].
Proof. induction n as [|k IH]; [reflexivity|]. exact IH. Qed.

Lemma busy_polls_waits n body :
  forallb is_wait body = true -> forallb is_wait (busy_polls n body) = true.
Proof.
  intros Hb. induction n as [|k IH]; [reflexivity|].
  cbn [busy_polls forallb is_wait andb]. rewrite forallb_app, Hb, IH.
  reflexivity.
Qed.

Lemma scan_wait_waits n : forallb is_wait (scan_wait n) = true.
Proof.
  unfold scan_wait. cbn [forallb is_wait andb].
  rewrite forallb_app, busy_polls_waits; reflexivity.
Qed.

Lemma lp_scan_wait_waits n : forallb is_wait (lp_scan_wait n) = true.
Proof. apply busy_polls_waits. reflexivity. Qed.

Lemma scan_wait_sleeps n :
  length (filter is_deep_sleep (scan_wait n)) = n.
Proof.
  unfold scan_wait. cbn [filter is_deep_sleep].
  rewrite filter_app, length_app, busy_polls_sleeps.
  cbn [filter is_deep_sleep length]. lia.
Qed.

Lemma lp_scan_wait_sleeps n :
  length (filter is_deep_sleep (lp_scan_wait n)) = n.
Proof.
  unfold lp_scan_wait. rewrite busy_polls_sleeps.
  cbn [filter is_deep_sleep length]. lia.
Qed.

Lemma scan_wait_guarded n rest :
  guarded_sleep false (scan_wait n ++ rest) = guarded_sleep false rest.
Proof.
  unfold scan_wait. cbn [app guarded_sleep negb andb].
  rewrite <- app_assoc, busy_polls_guarded. reflexivity.
Qed.

(** ** Sleeping while a scan is busy *)

(** In Active and ALR mode the calls of a cycle keep the critical-section
    discipline checked by [guarded_sleep]: the busy flag is read and deep
    sleep entered only inside a critical section, sections alternate and
    are closed, every other call is made outside; and deep sleep is
    entered once for each time the scan is found busy. *)
Theorem full_scan_sleeps_inside_critical_section m s :
  appState m = ACTIVE_MODE \/ appState m = ALR_MODE ->
  guarded_sleep false (trace (main_cycle s m)) = true /\
  length (filter is_deep_sleep (trace (main_cycle s m))) = busyPolls s.
Proof.
  intros [Hm | Hm].
  - rewrite (main_cycle_active_trace s m Hm). cbv zeta.
    destruct (anyWidgetActive s =? 0);
      [destruct (ACTIVE_MODE_TIMEOUT <? wrap32 (appStateTimeoutCount m + 1))|];
      cbn [trace app]; rewrite <- ?app_assoc;
      (split;
       [cbn [guarded_sleep negb andb]; rewrite scan_wait_guarded; reflexivity
       |cbn [filter is_deep_sleep]; rewrite filter_app, length_app,
          scan_wait_sleeps; cbn [app filter is_deep_sleep length]; lia]).
  - rewrite (main_cycle_alr_trace s m Hm). cbv zeta.
    destruct (anyWidgetActive s =? 0);
      [destruct (ALR_MODE_TIMEOUT <? wrap32 (appStateTimeoutCount m + 1))|];
      cbn [trace app]; rewrite <- ?app_assoc;
      (split;
       [cbn [guarded_sleep negb andb]; rewrite scan_wait_guarded; reflexivity
       |cbn [filter is_deep_sleep]; rewrite filter_app, length_app,
          scan_wait_sleeps; cbn [app filter is_deep_sleep length]; lia]).
Qed.

Lemma full_scan_sleeps_inside_critical_section_witness :
  guarded_sleep false
    (trace (main_cycle (mkSample 2 0 0) (mkMachine ALR_MODE 7 ALR_MODE_TIMER)))
    = true /\
  length (filter is_deep_sleep
            (trace (main_cycle (mkSample 2 0 0)
                               (mkMachine ALR_MODE 7 ALR_MODE_TIMER)))) = 2%nat.
Proof.
  apply (full_scan_sleeps_inside_critical_section
           (mkMachine ALR_MODE 7 ALR_MODE_TIMER) (mkSample 2 0 0)).
  right. reflexivity.
Defined.

(** In WOT mode a cycle enters and leaves no critical section; deep sleep
    is entered once for each time the low-power scan is found busy. *)
Theorem lp_scan_sleeps_without_critical_section m s :
  appState m = WOT_MODE ->
  filter is_critical (trace (main_cycle s m)) = [] /\
  length (filter is_deep_sleep (trace (main_cycle s m))) = busyPolls s.
Proof.
  intros Hm. rewrite (main_cycle_wot_trace s m Hm). cbv zeta.
  destruct (anyLpWidgetActive s =? 0); cbn [trace app];
    rewrite <- ?app_assoc;
    (split;
     [cbn [filter is_critical]; rewrite filter_app;
      unfold lp_scan_wait; rewrite busy_polls_no_critical; reflexivity
     |cbn [filter is_deep_sleep]; rewrite filter_app, length_app,
        lp_scan_wait_sleeps; cbn [app filter is_deep_sleep length]; lia]).
Qed.

Lemma lp_scan_sleeps_without_critical_section_witness :
  filter is_critical
    (trace (main_cycle (mkSample 3 0 0) (mkMachine WOT_MODE 0 ALR_MODE_TIMER)))
    = [] /\
  length (filter is_deep_sleep
            (trace (main_cycle (mkSample 3 0 0)
                               (mkMachine WOT_MODE 0 ALR_MODE_TIMER)))) = 3%nat.
Proof.
  apply (lp_scan_sleeps_without_critical_section
           (mkMachine WOT_MODE 0 ALR_MODE_TIMER) (mkSample 3 0 0)).
  reflexivity.
Defined.

(** ** The shape of a cycle *)




(** ** What a transition depends on *)

Lemma eqb_zero_of_reports a b :
  negb (a =? 0) = negb (b =? 0) -> (a =? 0) = (b =? 0).
Proof. destruct (a =? 0), (b =? 0); simpl; congruence. Qed.

(** The mode and the counter after a cycle depend only on the mode and
    the counter before it and on whether the sample reports activity: not
    on the wake timer, not on how long the scan was busy, not on the
    value of a query beyond its being zero or not, and not on the query
    the mode does not make. *)
Theorem transition_depends_on_mode_counter_activity m1 m2 s1 s2 :
  appState m1 = appState m2 ->
  appStateTimeoutCount m1 = appStateTimeoutCount m2 ->
  reports_activity (appState m1) s1 = reports_activity (appState m1) s2 ->
  option_map (fun m => (appState m, appStateTimeoutCount m))
             (final (main_cycle s1 m1))
  = option_map (fun m => (appState m, appStateTimeoutCount m))
               (final (main_cycle s2 m2)).
Proof.
  intros Hmode Hcount Hact.
  destruct (Z.eq_dec (appState m1) ACTIVE_MODE) as [Ha|Ha];
    [|destruct (Z.eq_dec (appState m1) ALR_MODE) as [Hl|Hl];
      [|destruct (Z.eq_dec (appState m1) WOT_MODE) as [Hw|Hw]]].
  - rewrite Ha, !reports_activity_active in Hact.
    apply eqb_zero_of_reports in Hact.
    assert (Ha2 : appState m2 = ACTIVE_MODE) by congruence.
    destruct (main_cycle_active s1 m1 Ha) as (w1 & _ & H1).
    destruct (main_cycle_active s2 m2 Ha2) as (w2 & _ & H2).
    cbv zeta in H1, H2. rewrite H1, H2, Hact, Hcount. clear H1 H2.
    destruct (anyWidgetActive s2 =? 0);
      [destruct (ACTIVE_MODE_TIMEOUT <? _)|]; reflexivity.
  - rewrite Hl, !reports_activity_alr in Hact.
    apply eqb_zero_of_reports in Hact.
    assert (Hl2 : appState m2 = ALR_MODE) by congruence.
    destruct (main_cycle_alr s1 m1 Hl) as (w1 & _ & H1).
    destruct (main_cycle_alr s2 m2 Hl2) as (w2 & _ & H2).
    cbv zeta in H1, H2. rewrite H1, H2, Hact, Hcount. clear H1 H2.
    destruct (anyWidgetActive s2 =? 0);
      [destruct (ALR_MODE_TIMEOUT <? _)|]; reflexivity.
  - rewrite Hw, !reports_activity_wot in Hact.
    apply eqb_zero_of_reports in Hact.
    assert (Hw2 : appState m2 = WOT_MODE) by congruence.
    destruct (main_cycle_wot s1 m1 Hw) as (w1 & _ & H1).
    destruct (main_cycle_wot s2 m2 Hw2) as (w2 & _ & H2).
    cbv zeta in H1, H2. rewrite H1, H2, Hact. clear H1 H2.
    destruct (anyLpWidgetActive s2 =? 0); reflexivity.
  - rewrite (main_cycle_default s1 m1 Ha Hl Hw).
    rewrite (main_cycle_default s2 m2); congruence.
Qed.

Lemma transition_depends_on_mode_counter_activity_witness :
  option_map (fun m => (appState m, appStateTimeoutCount m))
    (final (main_cycle (mkSample 0 7 0) (mkMachine ALR_MODE 9 ALR_MODE_TIMER)))
  = option_map (fun m => (appState m, appStateTimeoutCount m))
      (final (main_cycle (mkSample 4 1 1) (mkMachine ALR_MODE 9 0))).
Proof.
  apply (transition_depends_on_mode_counter_activity
           (mkMachine ALR_MODE 9 ALR_MODE_TIMER) (mkMachine ALR_MODE 9 0)
           (mkSample 0 7 0) (mkSample 4 1 1)); reflexivity.
Defined.

(** ** Activity *)

(** In ALR mode a sample that reports activity brings the mode to Active
    at once, whatever the counter was: the counter is 0 and the wake
    timer is reconfigured, by one call, to [ACTIVE_MODE_TIMER]. *)
Theorem alr_activity_wakes m s :
  appState m = ALR_MODE ->
  anyWidgetActive s <> 0 ->
  exists tr,
    main_cycle s m = Done tt (mkMachine ACTIVE_MODE 0 ACTIVE_MODE_TIMER) tr /\
    filter is_timer_config tr
      = [Cy_CapSense_ConfigureMsclpTimer ACTIVE_MODE_TIMER].
Proof.
  intros Hm Hs.
  destruct (main_cycle_alr s m Hm) as (w & Hf & Hrun). cbv zeta in Hrun.
  apply Z.eqb_neq in Hs. rewrite Hs in Hrun.
  eexists. split; [exact Hrun|]. filter_trace Hf. reflexivity.
Qed.

Lemma alr_activity_wakes_witness :
  exists tr,
    main_cycle (mkSample 1 3 0) (mkMachine ALR_MODE 160 ALR_MODE_TIMER)
      = Done tt (mkMachine ACTIVE_MODE 0 ACTIVE_MODE_TIMER) tr /\
    filter is_timer_config tr
      = [Cy_CapSense_ConfigureMsclpTimer ACTIVE_MODE_TIMER].
Proof.
  apply (alr_activity_wakes (mkMachine ALR_MODE 160 ALR_MODE_TIMER)
                            (mkSample 1 3 0)).
  - reflexivity.
  - cbn [anyWidgetActive]. discriminate.
Defined.

(** In Active mode a sample that reports activity keeps the mode, sets
    the counter to 0 and makes no timer call: the wake timer keeps the
    value it had. *)
Theorem active_activity_stays m s :
  appState m = ACTIVE_MODE ->
  anyWidgetActive s <> 0 ->
  exists tr,
    main_cycle s m = Done tt (mkMachine ACTIVE_MODE 0 (wakeupTimer m)) tr /\
    filter is_timer_config tr = [].
Proof.
  intros Hm Hs.
  destruct (main_cycle_active s m Hm) as (w & Hf & Hrun). cbv zeta in Hrun.
  apply Z.eqb_neq in Hs. rewrite Hs in Hrun.
  eexists. split; [exact Hrun|]. filter_trace Hf. reflexivity.
Qed.

Lemma active_activity_stays_witness :
  exists tr,
    main_cycle (mkSample 0 1 0) (mkMachine ACTIVE_MODE 640 77)
      = Done tt (mkMachine ACTIVE_MODE 0 77) tr /\
    filter is_timer_config tr = [].
Proof.
  apply (active_activity_stays (mkMachine ACTIVE_MODE 640 77)
                               (mkSample 0 1 0)).
  - reflexivity.
  - cbn [anyWidgetActive]. discriminate.
Defined.

(** ** The wake timer follows the mode *)

Lemma final_main_loop_app a b :
  forall m m1,
    final (main_loop a m) = Some m1 ->
    final (main_loop (a ++ b) m) = final (main_loop b m1).
Proof.
  induction a as [|s rest IH]; intros m m1 H.
  - cbn in H. injection H as <-. reflexivity.
  - cbn [app main_loop] in *. unfold bind in *.
    destruct (main_cycle s m) as [[] m' t'|t']; [|discriminate H].
    specialize (IH m' m1).
    destruct (main_loop rest m') as [[] m2 t2|t2]; [|discriminate H].
    cbn [final] in H. injection H as ->.
    specialize (IH eq_refl).
    destruct (main_loop (rest ++ b) m') as [[] m3 t3|t3];
      destruct (main_loop b m1) as [[] m4 t4|t4];
      cbn [final] in *; congruence.
Qed.

Lemma timer_invariant_init : timer_invariant main_init.
Proof. split; [apply loop_invariant_init | reflexivity]. Qed.

(** A cycle keeps the invariant with the timer. *)
Lemma main_cycle_timer_invariant m s :
  timer_invariant m ->
  exists m' tr, main_cycle s m = Done tt m' tr /\ timer_invariant m'.
Proof.
  intros [Hinv Ht].
  destruct (main_cycle_invariant m s Hinv) as (m' & tr & Hrun & Hinv' & _).
  exists m', tr. split; [exact Hrun|]. split; [exact Hinv'|].
  destruct Hinv as [[Hm Hc] | [[Hm Hc] | [Hm Hc]]]; rewrite Hm in Ht.
  - destruct (main_cycle_active s m Hm) as (w & _ & Hr). cbv zeta in Hr.
    rewrite Hrun in Hr.
    destruct (anyWidgetActive s =? 0);
      [destruct (ACTIVE_MODE_TIMEOUT <? wrap32 (appStateTimeoutCount m + 1))|];
      injection Hr as -> _; cbn [appState wakeupTimer]; try exact Ht;
      reflexivity.
  - destruct (main_cycle_alr s m Hm) as (w & _ & Hr). cbv zeta in Hr.
    rewrite Hrun in Hr.
    destruct (anyWidgetActive s =? 0);
      [destruct (ALR_MODE_TIMEOUT <? wrap32 (appStateTimeoutCount m + 1))|];
      injection Hr as -> _; cbn [appState wakeupTimer]; try exact Ht;
      reflexivity.
  - destruct (main_cycle_wot s m Hm) as (w & _ & Hr). cbv zeta in Hr.
    rewrite Hrun in Hr.
    destruct (anyLpWidgetActive s =? 0);
      injection Hr as -> _; cbn [appState wakeupTimer]; reflexivity.
Qed.

Lemma main_loop_timer_invariant ss :
  forall m, timer_invariant m ->
  exists m' tr, main_loop ss m = Done tt m' tr /\ timer_invariant m'.
Proof.
  induction ss as [|s rest IH]; intros m Hinv.
  - exists m, []. split; [reflexivity | exact Hinv].
  - destruct (main_cycle_timer_invariant m s Hinv) as (m1 & t1 & Hrun & Hinv1).
    destruct (IH m1 Hinv1) as (m2 & t2 & Hrest & Hinv2).
    exists m2, (t1 ++ t2). split; [|exact Hinv2].
    cbn [main_loop]. rewrite (bind_Done _ _ _ _ _ _ Hrun), Hrest. reflexivity.
Qed.

(** At the head of the loop, after any number of cycles from the start
    state, the mode is one of the three, the counter is at most the
    timeout of the mode (0 in WOT mode), and the wake timer holds
    [ACTIVE_MODE_TIMER] in Active mode and [ALR_MODE_TIMER] in ALR and in
    WOT mode. *)
Theorem timer_follows_mode ss :
  exists m tr,
    main_loop ss main_init = Done tt m tr /\
    (appState m = ACTIVE_MODE /\
     0 <= appStateTimeoutCount m <= ACTIVE_MODE_TIMEOUT /\
     wakeupTimer m = ACTIVE_MODE_TIMER \/
     appState m = ALR_MODE /\
     0 <= appStateTimeoutCount m <= ALR_MODE_TIMEOUT /\
     wakeupTimer m = ALR_MODE_TIMER \/
     appState m = WOT_MODE /\
     appStateTimeoutCount m = 0 /\
     wakeupTimer m = ALR_MODE_TIMER).
Proof.
  destruct (main_loop_timer_invariant ss main_init timer_invariant_init)
    as (m & tr & Hrun & Hinv & Ht).
  exists m, tr. split; [exact Hrun|].
  destruct Hinv as [[Hm Hc] | [[Hm Hc] | [Hm Hc]]]; rewrite Hm in Ht;
    [left | right; left | right; right]; repeat split;
    try assumption; try apply Hc.
Qed.

(** After any number of cycles from the start state, a cycle whose sample
    reports activity to the query of the current mode ends in the start
    state itself: Active mode, counter 0, wake timer [ACTIVE_MODE_TIMER]. *)
Theorem activity_returns_to_start ss s m :
  final (main_loop ss main_init) = Some m ->
  reports_activity (appState m) s = true ->
  final (main_loop (ss ++ [s]) main_init) = Some main_init.
Proof.
  intros Hreach Hact.
  rewrite (final_main_loop_app ss [s] main_init m Hreach).
  destruct (main_loop_timer_invariant ss main_init timer_invariant_init)
    as (m0 & tr & Hrun & Hinv & Ht).
  rewrite Hrun in Hreach. cbn [final] in Hreach. injection Hreach as ->.
  cbn [main_loop]. unfold bind, ret.
  destruct Hinv as [[Hm Hc] | [[Hm Hc] | [Hm Hc]]]; rewrite Hm in Ht, Hact.
  - rewrite reports_activity_active in Hact.
    destruct (main_cycle_active s m Hm) as (w & _ & Hr). cbv zeta in Hr.
    destruct (anyWidgetActive s =? 0); [discriminate Hact|].
    rewrite Hr. cbn [final]. rewrite Ht. reflexivity.
  - rewrite reports_activity_alr in Hact.
    destruct (main_cycle_alr s m Hm) as (w & _ & Hr). cbv zeta in Hr.
    destruct (anyWidgetActive s =? 0); [discriminate Hact|].
    rewrite Hr. reflexivity.
  - rewrite reports_activity_wot in Hact.
    destruct (main_cycle_wot s m Hm) as (w & _ & Hr). cbv zeta in Hr.
    destruct (anyLpWidgetActive s =? 0); [discriminate Hact|].
    rewrite Hr. reflexivity.
Qed.

Lemma activity_returns_to_start_witness :
  final (main_loop (repeat (mkSample 0 0 0) 700 ++ [mkSample 2 1 0]) main_init)
  = Some main_init.
Proof.
  apply (activity_returns_to_start (repeat (mkSample 0 0 0) 700)
           (mkSample 2 1 0) (mkMachine ALR_MODE 59 ALR_MODE_TIMER)).
  - vm_compute. reflexivity.
  - reflexivity.
Defined.

(** ** Counting idle cycles *)

Lemma active_idle_stays ss :
  forall m,
    appState m = ACTIVE_MODE ->
    0 <= appStateTimeoutCount m ->
    Forall (fun s => anyWidgetActive s = 0) ss ->
    appStateTimeoutCount m + Z.of_nat (length ss) <= ACTIVE_MODE_TIMEOUT ->
    final (main_loop ss m)
    = Some (mkMachine ACTIVE_MODE
              (appStateTimeoutCount m + Z.of_nat (length ss))
              (wakeupTimer m)).
Proof.
  induction ss as [|s rest IH]; intros m Hm Hc Hidle Hle.
  - cbn. rewrite Z.add_0_r, <- Hm. destruct m; reflexivity.
  - inversion Hidle as [|? ? Hs Hrest]; subst.
    rewrite ACTIVE_MODE_TIMEOUT_value in *.
    cbn [length] in Hle. rewrite Nat2Z.inj_succ in Hle.
    destruct (main_cycle_active s m Hm) as (w & _ & Hr). cbv zeta in Hr.
    rewrite Hs, wrap32_small, ACTIVE_MODE_TIMEOUT_value in Hr by lia.
    cbn [Z.eqb] in Hr.
    replace (640 <? appStateTimeoutCount m + 1) with false in Hr
      by (symmetry; apply Z.ltb_ge; lia).
    change (s :: rest) with ([s] ++ rest).
    rewrite (final_main_loop_app [s] rest m
               (mkMachine ACTIVE_MODE (appStateTimeoutCount m + 1)
                          (wakeupTimer m))).
    + cbn [length app]. rewrite Nat2Z.inj_succ.
      rewrite IH; cbn [appState appStateTimeoutCount wakeupTimer];
        try reflexivity; try assumption; try lia.
      f_equal. f_equal. lia.
    + cbn [main_loop]. unfold bind, ret. rewrite Hr. reflexivity.
Qed.

Lemma alr_idle_stays ss :
  forall m,
    appState m = ALR_MODE ->
    0 <= appStateTimeoutCount m ->
    Forall (fun s => anyWidgetActive s = 0) ss ->
    appStateTimeoutCount m + Z.of_nat (length ss) <= ALR_MODE_TIMEOUT ->
    final (main_loop ss m)
    = Some (mkMachine ALR_MODE
              (appStateTimeoutCount m + Z.of_nat (length ss))
              (wakeupTimer m)).
Proof.
  induction ss as [|s rest IH]; intros m Hm Hc Hidle Hle.
  - cbn. rewrite Z.add_0_r, <- Hm. destruct m; reflexivity.
  - inversion Hidle as [|? ? Hs Hrest]; subst.
    rewrite ALR_MODE_TIMEOUT_value in *.
    cbn [length] in Hle. rewrite Nat2Z.inj_succ in Hle.
    destruct (main_cycle_alr s m Hm) as (w & _ & Hr). cbv zeta in Hr.
    rewrite Hs, wrap32_small, ALR_MODE_TIMEOUT_value in Hr by lia.
    cbn [Z.eqb] in Hr.
    replace (160 <? appStateTimeoutCount m + 1) with false in Hr
      by (symmetry; apply Z.ltb_ge; lia).
    change (s :: rest) with ([s] ++ rest).
    rewrite (final_main_loop_app [s] rest m
               (mkMachine ALR_MODE (appStateTimeoutCount m + 1)
                          (wakeupTimer m))).
    + cbn [length app]. rewrite Nat2Z.inj_succ.
      rewrite IH; cbn [appState appStateTimeoutCount wakeupTimer];
        try reflexivity; try assumption; try lia.
      f_equal. f_equal. lia.
    + cbn [main_loop]. unfold bind, ret. rewrite Hr. reflexivity.
Qed.

(** From Active mode with counter [c], idle cycles keep the mode and the
    wake timer and add one to the counter each, as long as the counter
    stays within [ACTIVE_MODE_TIMEOUT]; the idle cycle that follows a
    counter of [ACTIVE_MODE_TIMEOUT] leads to ALR mode with counter 0 and
    wake timer [ALR_MODE_TIMER].  So ALR mode is entered by the idle cycle
    number [ACTIVE_MODE_TIMEOUT + 1 - c], not earlier. *)
Theorem active_idle_countdown m ss s :
  appState m = ACTIVE_MODE ->
  0 <= appStateTimeoutCount m ->
  Forall (fun x => anyWidgetActive x = 0) ss ->
  anyWidgetActive s = 0 ->
  appStateTimeoutCount m + Z.of_nat (length ss) <= ACTIVE_MODE_TIMEOUT ->
  final (main_loop ss m)
  = Some (mkMachine ACTIVE_MODE
            (appStateTimeoutCount m + Z.of_nat (length ss)) (wakeupTimer m)) /\
  final (main_loop (ss ++ [s]) m)
  = Some (if appStateTimeoutCount m + Z.of_nat (length ss)
             =? ACTIVE_MODE_TIMEOUT
          then mkMachine ALR_MODE 0 ALR_MODE_TIMER
          else mkMachine ACTIVE_MODE
                 (appStateTimeoutCount m + Z.of_nat (length ss) + 1)
                 (wakeupTimer m)).
Proof.
  intros Hm Hc Hidle Hs Hle.
  pose proof (active_idle_stays ss m Hm Hc Hidle Hle) as Hstay.
  split; [exact Hstay|].
  rewrite (final_main_loop_app ss [s] m _ Hstay).
  set (c := appStateTimeoutCount m + Z.of_nat (length ss)) in *.
  destruct (main_cycle_active s (mkMachine ACTIVE_MODE c (wakeupTimer m))
              eq_refl) as (w & _ & Hr).
  cbv zeta in Hr. cbn [appStateTimeoutCount wakeupTimer] in Hr.
  rewrite ACTIVE_MODE_TIMEOUT_value in *.
  rewrite Hs, wrap32_small in Hr by lia. cbn [Z.eqb] in Hr.
  cbn [main_loop]. unfold bind, ret. rewrite Hr.
  destruct (c =? 640) eqn:E.
  - apply Z.eqb_eq in E.
    replace (640 <? c + 1) with true by (symmetry; apply Z.ltb_lt; lia).
    reflexivity.
  - apply Z.eqb_neq in E.
    replace (640 <? c + 1) with false by (symmetry; apply Z.ltb_ge; lia).
    reflexivity.
Qed.

Lemma active_idle_countdown_witness :
  final (main_loop [mkSample 0 0 1; mkSample 3 0 0]
                   (mkMachine ACTIVE_MODE 638 ACTIVE_MODE_TIMER))
  = Some (mkMachine ACTIVE_MODE 640 ACTIVE_MODE_TIMER) /\
  final (main_loop ([mkSample 0 0 1; mkSample 3 0 0] ++ [mkSample 1 0 0])
                   (mkMachine ACTIVE_MODE 638 ACTIVE_MODE_TIMER))
  = Some (mkMachine ALR_MODE 0 ALR_MODE_TIMER).
Proof.
  apply (active_idle_countdown (mkMachine ACTIVE_MODE 638 ACTIVE_MODE_TIMER)
           [mkSample 0 0 1; mkSample 3 0 0] (mkSample 1 0 0)).
  - reflexivity.
  - cbn [appStateTimeoutCount]. lia.
  - repeat constructor.
  - reflexivity.
  - vm_compute. discriminate.
Defined.

(** From ALR mode with counter [c], idle cycles keep the mode and the wake
    timer and add one to the counter each, as long as the counter stays
    within [ALR_MODE_TIMEOUT]; the idle cycle that follows a counter of
    [ALR_MODE_TIMEOUT] leads to WOT mode with counter 0 and the wake timer
    as it was. *)
Theorem alr_idle_countdown m ss s :
  appState m = ALR_MODE ->
  0 <= appStateTimeoutCount m ->
  Forall (fun x => anyWidgetActive x = 0) ss ->
  anyWidgetActive s = 0 ->
  appStateTimeoutCount m + Z.of_nat (length ss) <= ALR_MODE_TIMEOUT ->
  final (main_loop ss m)
  = Some (mkMachine ALR_MODE
            (appStateTimeoutCount m + Z.of_nat (length ss)) (wakeupTimer m)) /\
  final (main_loop (ss ++ [s]) m)
  = Some (if appStateTimeoutCount m + Z.of_nat (length ss)
             =? ALR_MODE_TIMEOUT
          then mkMachine WOT_MODE 0 (wakeupTimer m)
          else mkMachine ALR_MODE
                 (appStateTimeoutCount m + Z.of_nat (length ss) + 1)
                 (wakeupTimer m)).
Proof.
  intros Hm Hc Hidle Hs Hle.
  pose proof (alr_idle_stays ss m Hm Hc Hidle Hle) as Hstay.
  split; [exact Hstay|].
  rewrite (final_main_loop_app ss [s] m _ Hstay).
  set (c := appStateTimeoutCount m + Z.of_nat (length ss)) in *.
  destruct (main_cycle_alr s (mkMachine ALR_MODE c (wakeupTimer m))
              eq_refl) as (w & _ & Hr).
  cbv zeta in Hr. cbn [appStateTimeoutCount wakeupTimer] in Hr.
  rewrite ALR_MODE_TIMEOUT_value in *.
  rewrite Hs, wrap32_small in Hr by lia. cbn [Z.eqb] in Hr.
  cbn [main_loop]. unfold bind, ret. rewrite Hr.
  destruct (c =? 160) eqn:E.
  - apply Z.eqb_eq in E.
    replace (160 <? c + 1) with true by (symmetry; apply Z.ltb_lt; lia).
    reflexivity.
  - apply Z.eqb_neq in E.
    replace (160 <? c + 1) with false by (symmetry; apply Z.ltb_ge; lia).
    reflexivity.
Qed.

Lemma alr_idle_countdown_witness :
  final (main_loop [mkSample 2 0 5]
                   (mkMachine ALR_MODE 159 ALR_MODE_TIMER))
  = Some (mkMachine ALR_MODE 160 ALR_MODE_TIMER) /\
  final (main_loop ([mkSample 2 0 5] ++ [mkSample 0 0 5])
                   (mkMachine ALR_MODE 159 ALR_MODE_TIMER))
  = Some (mkMachine WOT_MODE 0 ALR_MODE_TIMER).
Proof.
  apply (alr_idle_countdown (mkMachine ALR_MODE 159 ALR_MODE_TIMER)
           [mkSample 2 0 5] (mkSample 0 0 5)).
  - reflexivity.
  - cbn [appStateTimeoutCount]. lia.
  - repeat constructor.
  - reflexivity.
  - vm_compute. discriminate.
Defined.

(** * The start of [main] *)

Lemma InitializeCapsense_head ok r :
  exists rest,
    Startup.InitializeCapsense ok r
    = Startup.Cy_CapSense_Init (Startup.capsense_init_status r) :: rest /\
    filter Startup.is_register rest = [].
Proof.
  unfold Startup.InitializeCapsense.
  destruct (ok =? Startup.capsense_init_status r);
    eexists; split; reflexivity.
Qed.


(** When the board, the EZI2C block and the SPI master initialise
    successfully, the start of [main] reaches the loop in the state
    ([ACTIVE_MODE], 0, [ACTIVE_MODE_TIMER]), whatever the machine held at
    reset and whatever the CAPSENSE initialisation returns; the three
    deep-sleep callbacks are registered in the order EZI2C, SPI, custom,
    and the last call configures the wake timer. *)
Theorem startup_reaches_loop k_rslt k_i2c k_spi k_cs r m0 :
  Startup.cybsp_init_result r = k_rslt ->
  Startup.ezi2c_init_status r = k_i2c ->
  Startup.InitSpiMaster_result r = k_spi ->
  exists tr,
    Startup.main_startup k_rslt k_i2c k_spi k_cs r m0
    = Startup.Started main_init
        (tr ++ [Startup.Loop_call
                  (Cy_CapSense_ConfigureMsclpTimer ACTIVE_MODE_TIMER)]) /\
    filter Startup.is_register tr
    = [Startup.Cy_SysPm_RegisterCallback Startup.ezi2cCallback;
       Startup.Cy_SysPm_RegisterCallback Startup.spiCallback;
       Startup.Cy_SysPm_RegisterCallback Startup.deepSleepCb].
Proof.
  intros H1 H2 H3.
  destruct (InitializeCapsense_head k_cs r) as (rest & Hcs & Hreg).
  unfold Startup.main_startup, Startup.InitializeCapsenseTuner.
  rewrite H1, H2, H3, !Z.eqb_refl. cbn [negb].
  eexists. split; [reflexivity|].
  rewrite Hcs. cbn [app filter Startup.is_register Startup.RegisterCallback].
  rewrite filter_app, Hreg. reflexivity.
Qed.

Lemma startup_reaches_loop_witness :
  exists tr,
    Startup.main_startup 0 0 0 0 (Startup.mkResults 0 0 0 5 0)
                         (mkMachine 0 12345 0)
    = Startup.Started main_init
        (tr ++ [Startup.Loop_call
                  (Cy_CapSense_ConfigureMsclpTimer ACTIVE_MODE_TIMER)]) /\
    filter Startup.is_register tr
    = [Startup.Cy_SysPm_RegisterCallback Startup.ezi2cCallback;
       Startup.Cy_SysPm_RegisterCallback Startup.spiCallback;
       Startup.Cy_SysPm_RegisterCallback Startup.deepSleepCb].
Proof.
  apply (startup_reaches_loop 0 0 0 0 (Startup.mkResults 0 0 0 5 0)
                              (mkMachine 0 12345 0)); reflexivity.
Defined.

(** When the board, the EZI2C block or the SPI master fails to initialise,
    the start of [main] stops at an assertion before any deep-sleep
    callback is registered and before CAPSENSE is set up; a board failure
    stops it right after [cybsp_init], before interrupts are enabled. *)
Theorem startup_stops_on_failure k_rslt k_i2c k_spi k_cs r m0 :
  Startup.cybsp_init_result r <> k_rslt \/
  Startup.ezi2c_init_status r <> k_i2c \/
  Startup.InitSpiMaster_result r <> k_spi ->
  exists tr,
    Startup.main_startup k_rslt k_i2c k_spi k_cs r m0 = Startup.Stopped tr /\
    filter Startup.is_register tr = [] /\
    filter Startup.is_capsense_setup tr = [] /\
    (Startup.cybsp_init_result r <> k_rslt ->
     tr = [Startup.cybsp_init (Startup.cybsp_init_result r)]).
Proof.
  intros H.
  unfold Startup.main_startup, Startup.InitializeCapsenseTuner.
  destruct (Startup.cybsp_init_result r =? k_rslt) eqn:E1; cbn [negb].
  - apply Z.eqb_eq in E1.
    destruct (Startup.ezi2c_init_status r =? k_i2c) eqn:E2; cbn [negb].
    + apply Z.eqb_eq in E2.
      destruct (Startup.InitSpiMaster_result r =? k_spi) eqn:E3; cbn [negb].
      * apply Z.eqb_eq in E3. exfalso. destruct H as [H | [H | H]]; auto.
      * eexists. split; [reflexivity|]. repeat split. intros Hn.
        contradiction.
    + eexists. split; [reflexivity|]. repeat split. intros Hn. contradiction.
  - eexists. split; [reflexivity|]. repeat split.
Qed.

Lemma startup_stops_on_failure_witness :
  exists tr,
    Startup.main_startup 0 0 0 0 (Startup.mkResults 0 3 0 0 0)
                         (mkMachine 0 0 0) = Startup.Stopped tr /\
    filter Startup.is_register tr = [] /\
    filter Startup.is_capsense_setup tr = [] /\
    (Startup.cybsp_init_result (Startup.mkResults 0 3 0 0 0) <> 0 ->
     tr = [Startup.cybsp_init 0]).
Proof.
  apply (startup_stops_on_failure 0 0 0 0 (Startup.mkResults 0 3 0 0 0)
                                  (mkMachine 0 0 0)).
  right. left. cbn. discriminate.
Defined.

(** A failure of [Cy_CapSense_Init] does not stop the program: the start
    of [main] still reaches the loop in the start state, without setting
    up the MSCLP interrupt and without calling [Cy_CapSense_Enable]. *)
Theorem capsense_failure_is_not_fatal k_rslt k_i2c k_spi k_cs r m0 :
  Startup.cybsp_init_result r = k_rslt ->
  Startup.ezi2c_init_status r = k_i2c ->
  Startup.InitSpiMaster_result r = k_spi ->
  Startup.capsense_init_status r <> k_cs ->
  exists tr,
    Startup.main_startup k_rslt k_i2c k_spi k_cs r m0
    = Startup.Started main_init tr /\
    filter Startup.is_capsense_setup tr
    = [Startup.Cy_CapSense_Init (Startup.capsense_init_status r)].
Proof.
  intros H1 H2 H3 H4.
  unfold Startup.main_startup, Startup.InitializeCapsenseTuner,
    Startup.InitializeCapsense.
  rewrite H1, H2, H3, !Z.eqb_refl. cbn [negb].
  replace (k_cs =? Startup.capsense_init_status r) with false
    by (symmetry; apply Z.eqb_neq; congruence).
  eexists. split; reflexivity.
Qed.

Lemma capsense_failure_is_not_fatal_witness :
  exists tr,
    Startup.main_startup 0 0 0 0 (Startup.mkResults 0 0 0 9 0)
                         (mkMachine 0 0 0)
    = Startup.Started main_init tr /\
    filter Startup.is_capsense_setup tr = [Startup.Cy_CapSense_Init 9].
Proof.
  apply (capsense_failure_is_not_fatal 0 0 0 0 (Startup.mkResults 0 0 0 9 0)
                                       (mkMachine 0 0 0));
    try reflexivity.
  cbn. discriminate.
Defined.



(** * The LED update *)

Lemma wrap16_small x : 0 <= x < 2 ^ 16 -> Leds.wrap16 x = x.
Proof. intros H. unfold Leds.wrap16. apply Z.mod_small. exact H. Qed.

Lemma wrap8_small x : 0 <= x < 2 ^ 8 -> Leds.wrap8 x = x.
Proof. intros H. unfold Leds.wrap8. apply Z.mod_small. exact H. Qed.

Lemma wrap8_range x : 0 <= Leds.wrap8 x <= 255.
Proof.
  unfold Leds.wrap8.
  pose proof (Z.mod_pos_bound x (2 ^ 8) eq_refl) as H.
  change (2 ^ 8) with 256 in *. lia.
Qed.

(** The brightness quotient when the signal is within the span. *)
Lemma brightness_quotient d span :
  0 < span -> 0 <= d <= span ->
  0 <= d * 255 / span <= 255 /\
  (d * 255 / span = 255 <-> d = span).
Proof.
  intros Hs Hd.
  assert (Hlo : 0 <= d * 255 / span) by (apply Z.div_pos; lia).
  assert (Hhi : d * 255 / span <= 255).
  { apply Z.div_le_upper_bound; [lia | nia]. }
  split; [lia|]. split.
  - intros E.
    assert (span * 255 <= d * 255).
    { rewrite <- E at 1. apply Z.mul_div_le. lia. }
    lia.
  - intros ->. rewrite Z.mul_comm. apply Z.div_mul. lia.
Qed.

(** The reading of the proximity branch, for 16-bit fields with the
    baseline below the maximum raw count and the signal within the span. *)
Lemma UpdateLeds_proximity t led1 :
  Leds.proxSensorStatus t = Leds.PROX_STATE ->
  0 <= Leds.bsln t < Leds.maxRawCount t ->
  Leds.maxRawCount t < 2 ^ 16 ->
  0 <= Leds.diff t <= Leds.maxRawCount t - Leds.bsln t ->
  Leds.UpdateLeds t led1
  = Some (Leds.mkLed
            (Leds.diff t * 255 / (Leds.maxRawCount t - Leds.bsln t)) 0).
Proof.
  intros Hst Hb Hm Hd.
  destruct (brightness_quotient (Leds.diff t)
              (Leds.maxRawCount t - Leds.bsln t)) as [Hq _]; [lia | lia |].
  unfold Leds.UpdateLeds. rewrite Hst, Z.eqb_refl.
  rewrite wrap16_small by lia.
  replace (Leds.maxRawCount t - Leds.bsln t =? 0) with false
    by (symmetry; apply Z.eqb_neq; lia).
  change (2 ^ 16) with 65536 in *.
  rewrite wrap32_small by (change (2 ^ 32) with 4294967296; lia).
  rewrite wrap8_small by (change (2 ^ 8) with 256; lia).
  reflexivity.
Qed.

(** In the proximity state, with the baseline below the maximum raw count
    and the signal [diff] within the span [maxRawCount - bsln], the green
    brightness is [diff * 255 / span] without loss, between 0 and 255, and
    255 exactly when the signal equals the span; blue is off. *)
Theorem proximity_brightness_is_proportional t led1 :
  Leds.proxSensorStatus t = Leds.PROX_STATE ->
  0 <= Leds.bsln t < Leds.maxRawCount t ->
  Leds.maxRawCount t < 2 ^ 16 ->
  0 <= Leds.diff t <= Leds.maxRawCount t - Leds.bsln t ->
  exists g,
    Leds.UpdateLeds t led1 = Some (Leds.mkLed g 0) /\
    g = Leds.diff t * 255 / (Leds.maxRawCount t - Leds.bsln t) /\
    0 <= g <= 255 /\
    (g = 255 <-> Leds.diff t = Leds.maxRawCount t - Leds.bsln t).
Proof.
  intros Hst Hb Hm Hd.
  destruct (brightness_quotient (Leds.diff t)
              (Leds.maxRawCount t - Leds.bsln t)) as [Hq Hfull]; [lia | lia |].
  eexists. split; [apply UpdateLeds_proximity; assumption|].
  split; [reflexivity|]. split; assumption.
Qed.

Lemma proximity_brightness_is_proportional_witness :
  exists g,
    Leds.UpdateLeds (Leds.mkReading 1 1000 600 100) (Leds.mkLed 9 9)
      = Some (Leds.mkLed g 0) /\
    g = 100 * 255 / (1000 - 600) /\
    0 <= g <= 255 /\
    (g = 255 <-> 100 = 1000 - 600).
Proof.
  apply (proximity_brightness_is_proportional
           (Leds.mkReading 1 1000 600 100) (Leds.mkLed 9 9));
    cbn; try reflexivity; lia.
Defined.

(** Within the span the green brightness does not decrease when the
    signal grows: of two readings in the proximity state with the same
    maximum raw count and baseline, the one with the larger signal gives
    the larger or equal brightness. *)
Theorem proximity_brightness_is_monotone t1 t2 led1 led2 :
  Leds.proxSensorStatus t1 = Leds.PROX_STATE ->
  Leds.proxSensorStatus t2 = Leds.PROX_STATE ->
  Leds.maxRawCount t1 = Leds.maxRawCount t2 ->
  Leds.bsln t1 = Leds.bsln t2 ->
  0 <= Leds.bsln t1 < Leds.maxRawCount t1 ->
  Leds.maxRawCount t1 < 2 ^ 16 ->
  0 <= Leds.diff t1 <= Leds.diff t2 ->
  Leds.diff t2 <= Leds.maxRawCount t1 - Leds.bsln t1 ->
  exists g1 g2,
    Leds.UpdateLeds t1 led1 = Some (Leds.mkLed g1 0) /\
    Leds.UpdateLeds t2 led2 = Some (Leds.mkLed g2 0) /\
    g1 <= g2.
Proof.
  intros Hs1 Hs2 Hmax Hbs Hb Hm Hd1 Hd2.
  do 2 eexists. split; [|split].
  - apply UpdateLeds_proximity; (assumption || lia).
  - apply UpdateLeds_proximity; (congruence || lia).
  - rewrite <- Hmax, <- Hbs. apply Z.div_le_mono; lia.
Qed.

Lemma proximity_brightness_is_monotone_witness :
  exists g1 g2,
    Leds.UpdateLeds (Leds.mkReading 1 1000 600 100) (Leds.mkLed 0 0)
      = Some (Leds.mkLed g1 0) /\
    Leds.UpdateLeds (Leds.mkReading 1 1000 600 200) (Leds.mkLed 5 5)
      = Some (Leds.mkLed g2 0) /\
    g1 <= g2.
Proof.
  apply (proximity_brightness_is_monotone
           (Leds.mkReading 1 1000 600 100) (Leds.mkReading 1 1000 600 200)
           (Leds.mkLed 0 0) (Leds.mkLed 5 5));
    cbn; try reflexivity; lia.
Defined.

Lemma wrap16_diff_zero a b :
  0 <= a < 2 ^ 16 -> 0 <= b < 2 ^ 16 ->
  (Leds.wrap16 (a - b) = 0 <-> a = b).
Proof.
  intros Ha Hb. unfold Leds.wrap16. change (2 ^ 16) with 65536 in *.
  split.
  - intros H. Z.div_mod_to_equations. lia.
  - intros ->. rewrite Z.sub_diag. reflexivity.
Qed.

(** The function divides by zero exactly when the sensor is in the
    proximity state and the maximum raw count equals the baseline; in
    every other case it completes. *)
Theorem update_leds_divides_by_zero_iff t led1 :
  0 <= Leds.maxRawCount t < 2 ^ 16 ->
  0 <= Leds.bsln t < 2 ^ 16 ->
  (Leds.UpdateLeds t led1 = None <->
   Leds.proxSensorStatus t = Leds.PROX_STATE /\
   Leds.maxRawCount t = Leds.bsln t).
Proof.
  intros Hm Hb. unfold Leds.UpdateLeds.
  pose proof (wrap16_diff_zero _ _ Hm Hb) as Hz.
  destruct (Leds.proxSensorStatus t =? Leds.PROX_STATE) eqn:E.
  - apply Z.eqb_eq in E.
    destruct (Leds.wrap16 (Leds.maxRawCount t - Leds.bsln t) =? 0) eqn:E0.
    + apply Z.eqb_eq in E0. split; [intros _ | reflexivity].
      split; [exact E | apply Hz; exact E0].
    + apply Z.eqb_neq in E0. split; [discriminate|].
      intros [_ H]. exfalso. apply E0, Hz, H.
  - apply Z.eqb_neq in E.
    destruct (Leds.TOUCH_STATE <=? Leds.proxSensorStatus t);
      (split; [discriminate | intros [H _]; contradiction]).
Qed.

Lemma update_leds_divides_by_zero_iff_witness :
  Leds.UpdateLeds (Leds.mkReading 1 800 800 40) (Leds.mkLed 0 0) = None <->
  1 = Leds.PROX_STATE /\ 800 = 800.
Proof.
  apply (update_leds_divides_by_zero_iff
           (Leds.mkReading 1 800 800 40) (Leds.mkLed 0 0)); cbn; lia.
Defined.

(** Whenever the function completes, the green brightness is between 0
    and 255, blue is either off or at [SERIAL_LED_BRIGHTNESS_MAX], green
    and blue are never lit together, and the result does not depend on
    what the two fields held before. *)
Theorem update_leds_colours t led1 led' :
  Leds.UpdateLeds t led1 = Some led' ->
  0 <= Leds.green led' <= 255 /\
  (Leds.blue led' = 0 \/ Leds.blue led' = Leds.SERIAL_LED_BRIGHTNESS_MAX) /\
  (Leds.green led' = 0 \/ Leds.blue led' = 0) /\
  (forall led0, Leds.UpdateLeds t led0 = Some led').
Proof.
  unfold Leds.UpdateLeds. cbn [Leds.green Leds.blue].
  destruct (Leds.proxSensorStatus t =? Leds.PROX_STATE).
  - destruct (Leds.wrap16 (Leds.maxRawCount t - Leds.bsln t) =? 0);
      [discriminate|].
    intros H. injection H as <-. cbn [Leds.green Leds.blue].
    split; [apply wrap8_range|]. repeat split; auto.
  - destruct (Leds.TOUCH_STATE <=? Leds.proxSensorStatus t);
      intros H; injection H as <-; cbn [Leds.green Leds.blue];
      repeat split; auto; lia.
Qed.

Lemma update_leds_colours_witness :
  0 <= Leds.green (Leds.mkLed 0 255) <= 255 /\
  (Leds.blue (Leds.mkLed 0 255) = 0 \/
   Leds.blue (Leds.mkLed 0 255) = Leds.SERIAL_LED_BRIGHTNESS_MAX) /\
  (Leds.green (Leds.mkLed 0 255) = 0 \/ Leds.blue (Leds.mkLed 0 255) = 0) /\
  (forall led0,
     Leds.UpdateLeds (Leds.mkReading 3 900 500 300) led0
     = Some (Leds.mkLed 0 255)).
Proof.
  apply (update_leds_colours (Leds.mkReading 3 900 500 300) (Leds.mkLed 7 7)).
  reflexivity.
Defined.

(** The brightness does not saturate: in the proximity state, when the
    signal is so far above the span that [diff * 255 / span] reaches 256,
    the green brightness is that quotient modulo 256, at least 256 below
    it. *)
Theorem proximity_brightness_wraps t led1 :
  Leds.proxSensorStatus t = Leds.PROX_STATE ->
  0 <= Leds.bsln t < Leds.maxRawCount t ->
  Leds.maxRawCount t < 2 ^ 16 ->
  0 <= Leds.diff t < 2 ^ 16 ->
  256 * (Leds.maxRawCount t - Leds.bsln t) <= 255 * Leds.diff t ->
  exists g,
    Leds.UpdateLeds t led1 = Some (Leds.mkLed g 0) /\
    g = (Leds.diff t * 255 / (Leds.maxRawCount t - Leds.bsln t)) mod 256 /\
    g + 256 <= Leds.diff t * 255 / (Leds.maxRawCount t - Leds.bsln t).
Proof.
  intros Hst Hb Hm Hd Hbig.
  change (2 ^ 16) with 65536 in *.
  set (span := Leds.maxRawCount t - Leds.bsln t) in *.
  assert (Hq : 256 <= Leds.diff t * 255 / span).
  { apply Z.div_le_lower_bound; lia. }
  eexists. split; [|split; [reflexivity|]].
  - unfold Leds.UpdateLeds. rewrite Hst, Z.eqb_refl.
    fold span. rewrite wrap16_small by (change (2 ^ 16) with 65536; lia).
    replace (span =? 0) with false by (symmetry; apply Z.eqb_neq; lia).
    rewrite wrap32_small by (change (2 ^ 32) with 4294967296; lia).
    reflexivity.
  - pose proof (Z.mod_pos_bound (Leds.diff t * 255 / span) 256 eq_refl).
    pose proof (Z.div_mod (Leds.diff t * 255 / span) 256 ltac:(lia)).
    assert (1 <= Leds.diff t * 255 / span / 256)
      by (apply Z.div_le_lower_bound; lia).
    lia.
Qed.

Lemma proximity_brightness_wraps_witness :
  exists g,
    Leds.UpdateLeds (Leds.mkReading 1 1000 900 110) (Leds.mkLed 0 0)
      = Some (Leds.mkLed g 0) /\
    g = (110 * 255 / (1000 - 900)) mod 256 /\
    g + 256 <= 110 * 255 / (1000 - 900).
Proof.
  apply (proximity_brightness_wraps
           (Leds.mkReading 1 1000 900 110) (Leds.mkLed 0 0));
    cbn; try reflexivity; lia.
Defined.

(** * More on the deep-sleep callback and the wake timer *)

(** After one pass through [CY_SYSPM_BEFORE_TRANSITION] and
    [CY_SYSPM_AFTER_TRANSITION], every further pass leaves the drive mode
    of every pin as it found it. *)
Theorem sleep_and_wake_again port pin g p n :
  sleep_and_wake port pin (sleep_and_wake port pin g) p n
  = sleep_and_wake port pin g p n.
Proof.
  rewrite !sleep_and_wake_unfold. unfold Cy_GPIO_SetDrivemode.
  destruct ((p =? port) && (n =? pin)); reflexivity.
Qed.

(** The callback never changes a pin other than the serial-LED pin, in
    any phase, and changes no pin at all in a phase other than
    [CY_SYSPM_BEFORE_TRANSITION] and [CY_SYSPM_AFTER_TRANSITION]. *)
Theorem deep_sleep_callback_frame port pin mode g :
  (forall p n, (p =? port) && (n =? pin) = false ->
               snd (DeepSleepCallback port pin mode g) p n = g p n) /\
  (mode <> CY_SYSPM_BEFORE_TRANSITION ->
   mode <> CY_SYSPM_AFTER_TRANSITION ->
   snd (DeepSleepCallback port pin mode g) = g).
Proof.
  unfold DeepSleepCallback. split.
  - intros p n H.
    destruct (mode =? CY_SYSPM_CHECK_READY); [reflexivity|].
    destruct (mode =? CY_SYSPM_CHECK_FAIL); [reflexivity|].
    destruct (mode =? CY_SYSPM_BEFORE_TRANSITION);
      [apply Cy_GPIO_SetDrivemode_other, H|].
    destruct (mode =? CY_SYSPM_AFTER_TRANSITION);
      [apply Cy_GPIO_SetDrivemode_other, H | reflexivity].
  - intros Hb Ha. apply Z.eqb_neq in Hb, Ha. rewrite Hb, Ha.
    destruct (mode =? CY_SYSPM_CHECK_READY); [reflexivity|].
    destruct (mode =? CY_SYSPM_CHECK_FAIL); reflexivity.
Qed.

Lemma deep_sleep_callback_frame_witness :
  (forall p n, (p =? 2) && (n =? 5) = false ->
               snd (DeepSleepCallback 2 5 16 (fun _ _ => CY_GPIO_DM_STRONG))
                   p n = CY_GPIO_DM_STRONG) /\
  (16 <> CY_SYSPM_BEFORE_TRANSITION ->
   16 <> CY_SYSPM_AFTER_TRANSITION ->
   snd (DeepSleepCallback 2 5 16 (fun _ _ => CY_GPIO_DM_STRONG))
   = (fun _ _ => CY_GPIO_DM_STRONG)).
Proof.
  apply (deep_sleep_callback_frame 2 5 16 (fun _ _ => CY_GPIO_DM_STRONG)).
Defined.

(** A higher refresh rate gives a shorter reload value, as long as the
    period of the higher rate still exceeds the scan and process time. *)
Theorem timer_reload_decreases_with_rate r1 r2 scan process :
  0 < r1 <= r2 -> 0 <= scan -> 0 <= process ->
  scan + process < TIME_IN_US / r2 ->
  MODE_TIMER r2 scan process <= MODE_TIMER r1 scan process.
Proof.
  intros Hr Hs Hp Hlt.
  assert (Hdiv : TIME_IN_US / r2 <= TIME_IN_US / r1).
  { apply Z.div_le_compat_l; [unfold TIME_IN_US; lia | lia]. }
  rewrite !MODE_TIMER_margin by lia. lia.
Qed.

Lemma timer_reload_decreases_with_rate_witness :
  MODE_TIMER ACTIVE_MODE_REFRESH_RATE
             ACTIVE_MODE_FRAME_SCAN_TIME ACTIVE_MODE_PROCESS_TIME
  <= MODE_TIMER ALR_MODE_REFRESH_RATE
                ACTIVE_MODE_FRAME_SCAN_TIME ACTIVE_MODE_PROCESS_TIME.
Proof.
  apply (timer_reload_decreases_with_rate
           ALR_MODE_REFRESH_RATE ACTIVE_MODE_REFRESH_RATE
           ACTIVE_MODE_FRAME_SCAN_TIME ACTIVE_MODE_PROCESS_TIME);
    vm_compute; try split; try discriminate; reflexivity.
Defined.
